(** * QR31 quick-reply menu: the style-configuration engine of [events.js]

    A shallow embedding of the colour codec ([hexToRgba], [rgbaToHex],
    [getOpacityFromRgba]), of the picker/text synchronisation handlers
    installed by [setupColorPickerSync], and of the style panel operations
    ([applyMenuStyles], [resetMenuStyles], [updateMenuStylesUI],
    [loadMenuStylesIntoPanel], [closeMenuStylePanel]), followed by the
    properties of the specification that concern them.

    Conventions of the embedding.
    - A JavaScript string is a [string]: one [ascii] per code unit, so the
      embedding covers strings whose code units are below 256.
      [toUpperCase] is the one of JavaScript on such strings as long as the
      result stays among them, which excludes the code units 181 and 255
      ([upper_in_range]).
    - A JavaScript number is a [spec_float] of the binary64 format
      (53 bits of precision, maximal exponent 1024), the IEEE 754 model of
      the Standard Library; decimal literals are rounded to the nearest
      double, ties to even.
    - The document is a finite map from element ids to controls; a control is
      a record of the three properties the code touches ([value],
      [textContent], [style.display]).  The pickers are colour inputs, the
      sliders range inputs and the text fields text inputs ([kindOf]); an
      assignment to [value] stores what the kind of the control makes of the
      string ([sanitize]).
    - [extension_settings[EXTENSION_NAME].menuStyles] is a finite map from
      property names to JavaScript values, or absent.
    - The constants of [constants.js] are not part of [events.js]; they are
      the fields of a record [Constants] on which the panel operations are
      parameterised. *)

From Stdlib Require Import ZArith NArith String Ascii List Bool Lia.
From Stdlib Require Import Floats.SpecFloat.
From Stdlib Require DecimalString HexadecimalString.
From stdpp Require Import gmap strings.

Open Scope string_scope.

(** ** JavaScript strings *)

Module JsString.

(** WhiteSpace and LineTerminator code units below 256: TAB, LF, VT, FF, CR,
    SP and NBSP.  [String.prototype.trim] and the regular expression class
    [\s] use the same set. *)
Definition is_ws (c : ascii) : bool :=
  let n := N_of_ascii c in
  ((9 <=? n)%N && (n <=? 13)%N) || (n =? 32)%N || (n =? 160)%N.

(** The class [\d] (and [[0-9]]). *)
Definition is_digit (c : ascii) : bool :=
  let n := N_of_ascii c in (48 <=? n)%N && (n <=? 57)%N.

(** The value of a hexadecimal digit of either case; [None] for any other
    code unit.  [[0-9A-F]] under the flag [i] accepts exactly the code units
    with a value. *)
Definition hex_value (c : ascii) : option N :=
  let n := N_of_ascii c in
  if (48 <=? n)%N && (n <=? 57)%N then Some (n - 48)%N
  else if (65 <=? n)%N && (n <=? 70)%N then Some (n - 55)%N
  else if (97 <=? n)%N && (n <=? 102)%N then Some (n - 87)%N
  else None.

Definition is_hex_digit (c : ascii) : bool :=
  match hex_value c with Some _ => true | None => false end.

(** The class [[0-9.]]. *)
Definition is_digit_or_dot (c : ascii) : bool :=
  is_digit c || Ascii.eqb c ".".

Fixpoint trimStart (s : string) : string :=
  match s with
  | String c s' => if is_ws c then trimStart s' else s
  | EmptyString => s
  end.

Fixpoint trimEnd (s : string) : string :=
  match s with
  | EmptyString => EmptyString
  | String c s' =>
      match trimEnd s' with
      | EmptyString => if is_ws c then EmptyString else String c EmptyString
      | t => String c t
      end
  end.

(** [s.trim()] *)
Definition trim (s : string) : string := trimEnd (trimStart s).

(** The upper-case form of a code unit that has one among the code units
    below 256: the letters [a] to [z] and the Latin-1 letters 224 to 254,
    the division sign 247 apart. *)
Definition upper_char (c : ascii) : ascii :=
  let n := N_of_ascii c in
  if ((97 <=? n)%N && (n <=? 122)%N)
     || ((224 <=? n)%N && (n <=? 254)%N && negb (n =? 247)%N)
  then ascii_of_N (n - 32) else c.

(** [s.toUpperCase()].  The sharp s (223) becomes [SS].  The micro sign
    (181) and the y with diaeresis (255) have their upper-case forms, U+039C
    and U+0178, above 255, outside the code units of the embedding: the
    function is exact on the strings that hold neither ([upper_in_range])
    and leaves the two code units as they are. *)
Fixpoint toUpperCase (s : string) : string :=
  match s with
  | EmptyString => EmptyString
  | String c s' =>
      if (N_of_ascii c =? 223)%N then String "S" (String "S" (toUpperCase s'))
      else String (upper_char c) (toUpperCase s')
  end.

(** ASCII lower case, as the value of a colour input is converted. *)
Definition lower_char (c : ascii) : ascii :=
  let n := N_of_ascii c in
  if (65 <=? n)%N && (n <=? 90)%N then ascii_of_N (n + 32) else c.

Fixpoint ascii_lowercase (s : string) : string :=
  match s with
  | EmptyString => EmptyString
  | String c s' => String (lower_char c) (ascii_lowercase s')
  end.

(** The string without its LF and CR code units, as the value of a text
    input is stripped. *)
Fixpoint strip_newlines (s : string) : string :=
  match s with
  | EmptyString => EmptyString
  | String c s' =>
      if (N_of_ascii c =? 10)%N || (N_of_ascii c =? 13)%N
      then strip_newlines s' else String c (strip_newlines s')
  end.

(** [p] is a prefix of [s]. *)
Fixpoint is_prefix (p s : string) : bool :=
  match p, s with
  | EmptyString, _ => true
  | String a p', String b s' => Ascii.eqb a b && is_prefix p' s'
  | String _ _, EmptyString => false
  end.

(** [s.startsWith(p)] *)
Definition startsWith (p s : string) : bool := is_prefix p s.

Fixpoint drop (n : nat) (s : string) : string :=
  match n, s with
  | O, _ => s
  | S n', String _ s' => drop n' s'
  | S _, EmptyString => EmptyString
  end.

(** [s.replace(pat, rep)] for a string pattern: the first occurrence only.
    (The replacements of the code, [''] and ['-text'], hold no [$].) *)
Fixpoint replace (pat rep s : string) : string :=
  if is_prefix pat s then rep ++ drop (String.length pat) s
  else match s with
       | String c s' => String c (replace pat rep s')
       | EmptyString => EmptyString
       end.

(** [s.substring(a, b)] for [a <= b]. *)
Definition substring (a b : nat) (s : string) : string :=
  String.substring a (b - a) s.

(** [s.padStart(n, '0')] *)
Definition padStart0 (n : nat) (s : string) : string :=
  Nat.iter (n - String.length s) (String "0") s.

(** Longest prefix of code units satisfying [p], and the rest. *)
Fixpoint span (p : ascii -> bool) (s : string) : string * string :=
  match s with
  | String c s' =>
      if p c then let '(a, b) := span p s' in (String c a, b)
      else (EmptyString, s)
  | EmptyString => (EmptyString, EmptyString)
  end.

Fixpoint all_chars (p : ascii -> bool) (s : string) : bool :=
  match s with
  | String c s' => p c && all_chars p s'
  | EmptyString => true
  end.

(** The strings on which [toUpperCase] is exact: no micro sign, no y with
    diaeresis. *)
Definition upper_in_range (s : string) : bool :=
  all_chars (fun c => negb ((N_of_ascii c =? 181)%N || (N_of_ascii c =? 255)%N)) s.

(** Value of a string of digits in a radix (digits without a value in the
    radix count as 0; the callers pass checked digits only). *)
Fixpoint digits_value_from (radix acc : N) (s : string) : N :=
  match s with
  | String c s' =>
      digits_value_from radix
        (acc * radix + match hex_value c with Some d => d | None => 0 end)%N s'
  | EmptyString => acc
  end.

Definition digits_value (radix : N) (s : string) : N :=
  digits_value_from radix 0 s.

(** Decimal and hexadecimal numerals of a natural number, without padding:
    what [Number.prototype.toString(10)] and [toString(16)] give on an
    integer small enough to be printed digit by digit. *)
Definition dec_string (n : N) : string :=
  DecimalString.NilZero.string_of_uint (N.to_uint n).

Definition hex_string (n : N) : string :=
  HexadecimalString.NilZero.string_of_uint (N.to_hex_uint n).

End JsString.

Import JsString.

(** ** JavaScript numbers *)

Module JsNumber.

Definition number : Type := spec_float.

Definition prec : Z := 53.
Definition emax : Z := 1024.

Definition NaN : number := S754_nan.
Definition pos_zero : number := S754_zero false.

(** The double nearest to an integer. *)
Definition of_Z (z : Z) : number := binary_normalize prec emax z 0 false.

(** The double nearest to [(-1)^neg * m * 10^e] (ties to even): the rounding
    of the mathematical value of a decimal literal. *)
Definition of_decimal (neg : bool) (m : N) (e : Z) : number :=
  match m with
  | N0 => S754_zero neg
  | Npos p =>
      if (0 <=? e)%Z
      then binary_normalize prec emax
             ((if neg then Z.opp else id) (Zpos p * 10 ^ e)%Z) 0 false
      else match (10 ^ (- e))%Z with
           | Zpos q => SFdiv prec emax (S754_finite neg p 0) (S754_finite false q 0)
           | _ => S754_nan
           end
  end.

Definition one : number := of_Z 1.

Definition is_nan (x : number) : bool :=
  match x with S754_nan => true | _ => false end.

(** [x <= y] and [x < y] on numbers: false as soon as one side is NaN. *)
Definition leb (x y : number) : bool := SFleb x y.
Definition ltb (x y : number) : bool := SFltb x y.

(** Structural equality (the results of rounding are canonical). *)
Definition same (x y : number) : bool :=
  match x, y with
  | S754_zero a, S754_zero b => Bool.eqb a b
  | S754_infinity a, S754_infinity b => Bool.eqb a b
  | S754_nan, S754_nan => true
  | S754_finite a m e, S754_finite b m' e' =>
      Bool.eqb a b && Pos.eqb m m' && Z.eqb e e'
  | _, _ => false
  end.

(** [Math.min(x, y)] and [Math.max(x, y)]: NaN if an argument is NaN, and
    -0 is below +0. *)
Definition math_min (x y : number) : number :=
  match SFcompare x y with
  | None => NaN
  | Some Lt => x
  | Some Gt => y
  | Some Eq => match x with S754_zero true => x | _ => y end
  end.

Definition math_max (x y : number) : number :=
  match SFcompare x y with
  | None => NaN
  | Some Lt => y
  | Some Gt => x
  | Some Eq => match x with S754_zero false => x | _ => y end
  end.

(** *** Numeric literals in strings *)

Inductive unsigned_literal : Type :=
  | LitInfinity
  | LitDecimal (m : N) (e : Z).   (* the value m * 10^e *)

(** ExponentPart, [[eE][+-]?\d+]; when it is not complete nothing is
    consumed and the exponent is 0. *)
Definition scan_exponent (s : string) : Z * string :=
  match s with
  | String c r =>
      if Ascii.eqb c "e" || Ascii.eqb c "E" then
        let '(neg, r1) :=
          match r with
          | String "+" r' => (false, r')
          | String "-" r' => (true, r')
          | _ => (false, r)
          end in
        let '(d, r2) := span is_digit r1 in
        match d with
        | EmptyString => (0%Z, s)
        | _ => let v := Z.of_N (digits_value 10 d) in
               ((if neg then (- v)%Z else v), r2)
        end
      else (0%Z, s)
  | EmptyString => (0%Z, s)
  end.

(** Longest prefix of [s] that is a StrUnsignedDecimalLiteral, with the rest
    of the string. *)
Definition scan_unsigned (s : string) : option (unsigned_literal * string) :=
  if is_prefix "Infinity" s then Some (LitInfinity, drop 8 s)
  else
    let '(i, r) := span is_digit s in
    match i, r with
    | EmptyString, String "." r1 =>
        let '(f, r2) := span is_digit r1 in
        match f with
        | EmptyString => None
        | _ => let '(x, r3) := scan_exponent r2 in
               Some (LitDecimal (digits_value 10 f)
                                (x - Z.of_nat (String.length f)), r3)
        end
    | EmptyString, _ => None
    | _, String "." r1 =>
        let '(f, r2) := span is_digit r1 in
        let '(x, r3) := scan_exponent r2 in
        Some (LitDecimal (digits_value 10 (i ++ f))
                         (x - Z.of_nat (String.length f)), r3)
    | _, _ =>
        let '(x, r3) := scan_exponent r in
        Some (LitDecimal (digits_value 10 i) x, r3)
    end.

Definition scan_sign (s : string) : bool * string :=
  match s with
  | String "+" r => (false, r)
  | String "-" r => (true, r)
  | _ => (false, s)
  end.

Definition literal_value (neg : bool) (l : unsigned_literal) : number :=
  match l with
  | LitInfinity => S754_infinity neg
  | LitDecimal m e => of_decimal neg m e
  end.

(** [parseFloat(s)]: leading blanks are skipped, the longest prefix that is a
    decimal literal is read, what follows is ignored. *)
Definition parseFloat (s : string) : number :=
  let '(neg, r) := scan_sign (trimStart s) in
  match scan_unsigned r with
  | Some (l, _) => literal_value neg l
  | None => NaN
  end.

(** NonDecimalIntegerLiteral: [0x], [0o], [0b] and at least one digit of the
    radix, up to the end of the string. *)
Definition is_radix_digit (radix : N) (c : ascii) : bool :=
  match hex_value c with Some d => (d <? radix)%N | None => false end.

Definition scan_radix_literal (s : string) : option N :=
  match s with
  | String "0" (String c r) =>
      let radix :=
        if Ascii.eqb c "x" || Ascii.eqb c "X" then Some 16%N
        else if Ascii.eqb c "o" || Ascii.eqb c "O" then Some 8%N
        else if Ascii.eqb c "b" || Ascii.eqb c "B" then Some 2%N
        else None in
      match radix, r with
      | Some b, String _ _ =>
          if all_chars (is_radix_digit b) r then Some (digits_value b r) else None
      | _, _ => None
      end
  | _ => None
  end.

(** [Number(s)], the conversion the comparison operators apply to a string
    operand: the whole trimmed string has to be a numeric literal; the empty
    string is 0. *)
Definition of_string (s : string) : number :=
  let t := trim s in
  match t with
  | EmptyString => pos_zero
  | _ =>
      match scan_radix_literal t with
      | Some n => of_Z (Z.of_N n)
      | None =>
          let '(neg, r) := scan_sign t in
          match scan_unsigned r with
          | Some (l, EmptyString) => literal_value neg l
          | _ => NaN
          end
      end
  end.

(** *** Number to string *)

Fixpoint zeros (n : nat) : string :=
  match n with O => EmptyString | S n' => String "0" (zeros n') end.

(** For [0 < num/den < 1]: the number of zeros that follow the decimal
    point. *)
Fixpoint leading_zeros (fuel : nat) (num den j : Z) : Z :=
  match fuel with
  | O => j
  | S fuel' =>
      if (den <=? num * 10)%Z then j
      else leading_zeros fuel' (num * 10)%Z den (j + 1)%Z
  end.

(** The [n] of Number::toString: [10^(n-1) <= num/den < 10^n]. *)
Definition decimal_exponent (num den : Z) : Z :=
  if (den <=? num)%Z
  then Z.of_nat (String.length (dec_string (Z.to_N (num / den))))
  else (- leading_zeros (S (Z.to_nat (Z.log2 den))) num den 0)%Z.

(** For [k] = 1, 2, ...: the two integers [s] of [k] digits around
    [num/den / 10^(n-k)]; the first [k] for which [s * 10^(n-k)] rounds to [x]
    gives the digits (the closer of the two when both do, the even one on a
    tie). *)
Fixpoint shortest_digits (fuel : nat) (x : number) (num den n k : Z) : N * Z :=
  let e10 := (n - k)%Z in
  let '(a, b) :=
    if (e10 <=? 0)%Z then (num * 10 ^ (- e10), den)%Z
    else (num, den * 10 ^ e10)%Z in
  let lo := (a / b)%Z in
  let hi := (lo + 1)%Z in
  let r := (a mod b)%Z in
  let ok_lo := same (of_decimal false (Z.to_N lo) e10) x in
  let ok_hi := same (of_decimal false (Z.to_N hi) e10) x in
  let pick_hi :=
    match (2 * r ?= b)%Z with
    | Lt => false
    | Gt => true
    | Eq => Z.odd lo
    end in
  match fuel with
  | O => (Z.to_N lo, e10)
  | S fuel' =>
      if ok_lo && ok_hi then (Z.to_N (if pick_hi then hi else lo), e10)
      else if ok_lo then (Z.to_N lo, e10)
      else if ok_hi then (Z.to_N hi, e10)
      else shortest_digits fuel' x num den n (k + 1)%Z
  end.

(** Trailing zeros of [s] move into the exponent. *)
Fixpoint strip_zeros (fuel : nat) (s : N) (e10 : Z) : N * Z :=
  match fuel with
  | O => (s, e10)
  | S fuel' =>
      if ((0 <? s) && (s mod 10 =? 0))%N
      then strip_zeros fuel' (s / 10)%N (e10 + 1)%Z
      else (s, e10)
  end.

(** The layout of Number::toString for the digits [d] and the exponent [n]. *)
Definition layout (d : string) (n : Z) : string :=
  let k := Z.of_nat (String.length d) in
  if ((k <=? n) && (n <=? 21))%Z then d ++ zeros (Z.to_nat (n - k))
  else if ((0 <? n) && (n <=? 21))%Z then
    String.substring 0 (Z.to_nat n) d ++ "." ++
    String.substring (Z.to_nat n) (Z.to_nat (k - n)) d
  else if ((-6 <? n) && (n <=? 0))%Z then "0." ++ zeros (Z.to_nat (- n)) ++ d
  else
    let e := (n - 1)%Z in
    let es := (if (0 <=? e)%Z then "+" else "-") ++ dec_string (Z.to_N (Z.abs e)) in
    match d with
    | String c EmptyString => String c ("e" ++ es)
    | String c rest => String c ("." ++ rest ++ "e" ++ es)
    | EmptyString => EmptyString
    end.

Definition positive_to_string (m : positive) (e : Z) : string :=
  let '(num, den) :=
    if (0 <=? e)%Z then (Zpos m * 2 ^ e, 1)%Z else (Zpos m, 2 ^ (- e))%Z in
  let n := decimal_exponent num den in
  let '(s, e10) := shortest_digits 17 (S754_finite false m e) num den n 1 in
  let '(s', e10') := strip_zeros 20 s e10 in
  let d := dec_string s' in
  layout d (e10' + Z.of_nat (String.length d)).

(** [String(x)], Number::toString in radix 10: the shortest decimal numeral
    that reads back as [x]. *)
Definition to_string (x : number) : string :=
  match x with
  | S754_nan => "NaN"
  | S754_zero _ => "0"
  | S754_infinity false => "Infinity"
  | S754_infinity true => "-Infinity"
  | S754_finite false m e => positive_to_string m e
  | S754_finite true m e => "-" ++ positive_to_string m e
  end.

End JsNumber.

Import JsNumber.

(** ** JavaScript values *)

Inductive jsval : Type :=
  | JUndefined
  | JNull
  | JBool (b : bool)
  | JNum (x : number)
  | JStr (s : string).

(** ToBoolean: what [!v], [v || w], [v && w] and [v ? a : b] test. *)
Definition to_boolean (v : jsval) : bool :=
  match v with
  | JUndefined | JNull => false
  | JBool b => b
  | JNum (S754_nan | S754_zero _) => false
  | JNum _ => true
  | JStr EmptyString => false
  | JStr _ => true
  end.

(** ToNumber: what [>=] and [<=] apply to an operand compared with a
    number. *)
Definition to_number (v : jsval) : number :=
  match v with
  | JUndefined => NaN
  | JNull => pos_zero
  | JBool b => if b then one else pos_zero
  | JNum x => x
  | JStr s => JsNumber.of_string s
  end.

(** ToString: what a template literal, [RegExp.prototype.test] and the
    assignment of a DOM string property apply. *)
Definition to_js_string (v : jsval) : string :=
  match v with
  | JUndefined => "undefined"
  | JNull => "null"
  | JBool b => if b then "true" else "false"
  | JNum x => JsNumber.to_string x
  | JStr s => s
  end.

(** [v || w] *)
Definition js_or (v w : jsval) : jsval := if to_boolean v then v else w.

Definition is_string (v : jsval) : bool :=
  match v with JStr _ => true | _ => false end.

(** An object with scalar properties; an absent key reads as [undefined]. *)
Definition get_prop (o : gmap string jsval) (k : string) : jsval :=
  match o !! k with Some v => v | None => JUndefined end.

(** [JSON.parse(JSON.stringify(o))] on such an object: a property whose value
    is [undefined] is dropped, a number that is not finite becomes [null],
    -0 becomes 0. *)
Definition json_clone (o : gmap string jsval) : gmap string jsval :=
  omap (fun v =>
          match v with
          | JUndefined => None
          | JNum (S754_nan | S754_infinity _) => Some JNull
          | JNum (S754_zero _) => Some (JNum pos_zero)
          | _ => Some v
          end) o.

(** ** The regular expressions of [events.js] *)

Module Regex.

Definition six_hex_digits (s : string) : bool :=
  match s with
  | String a (String b (String c (String d (String e (String f EmptyString))))) =>
      forallb is_hex_digit [a; b; c; d; e; f]
  | _ => false
  end.

(** [/^#[0-9A-F]{6}$/i.test(s)] *)
Definition test_hex6 (s : string) : bool :=
  match s with
  | String "#" r => six_hex_digits r
  | _ => false
  end.

(** [/^#?([0-9A-F]{6})$/i.test(s)].  After a leading [#] the six digits have
    to follow: giving the [#] back cannot help, it is not a digit. *)
Definition test_opt_hash_hex6 (s : string) : bool :=
  match s with
  | String "#" r => six_hex_digits r
  | _ => six_hex_digits s
  end.

Definition expect (c : ascii) (s : string) : option string :=
  match s with
  | String c' r => if Ascii.eqb c c' then Some r else None
  | EmptyString => None
  end.

Definition expect_prefix (p s : string) : option string :=
  if is_prefix p s then Some (drop (String.length p) s) else None.

(** [\d+] and [[0-9.]+]: the longest run, which has to be non-empty. *)
Definition some_of (p : ascii -> bool) (s : string) : option (string * string) :=
  match span p s with
  | (EmptyString, _) => None
  | (a, r) => Some (a, r)
  end.

(** [\s*] *)
Definition skip_ws (s : string) : string := snd (span is_ws s).

(** The captures of a match: [match[1]], [match[2]], [match[3]] and
    [match[4]], which is [undefined] when the alpha group did not take
    part. *)
Definition captures : Type := string * string * string * option string.

(** The optional group [(?:,\s*([0-9.]+))?] followed by [\)]. *)
Definition alpha_group (s : string) : option string :=
  r ← expect "," s;
  '(a, r') ← some_of is_digit_or_dot (skip_ws r);
  _ ← expect ")" r';
  Some a.

(** A match of
    [/rgba?\((\d+),\s*(\d+),\s*(\d+)(?:,\s*([0-9.]+))?\)/]
    that starts at the first code unit of [s].  Every quantifier is greedy
    and is followed by something its own class excludes (a digit run by [,]
    or [\)], blanks by a digit, [a?] by [\(]), so giving back part of what a
    quantifier took never leads to a match: the longest runs decide. *)
Definition match_rgba_here (s : string) : option captures :=
  r0 ← expect_prefix "rgb" s;
  r1 ← expect "(" (match r0 with String "a" r => r | _ => r0 end);
  '(c1, r2) ← some_of is_digit r1;
  r3 ← expect "," r2;
  '(c2, r4) ← some_of is_digit (skip_ws r3);
  r5 ← expect "," r4;
  '(c3, r6) ← some_of is_digit (skip_ws r5);
  match alpha_group r6 with
  | Some a => Some (c1, c2, c3, Some a)
  | None => _ ← expect ")" r6; Some (c1, c2, c3, None)
  end.

(** [s.match(/rgba?.../)]: the leftmost match, [None] for [null]. *)
Fixpoint match_rgba (s : string) : option captures :=
  match match_rgba_here s with
  | Some c => Some c
  | None =>
      match s with
      | String _ s' => match_rgba s'
      | EmptyString => None
      end
  end.

End Regex.

Import Regex.

(** ** The controls of the panel *)

(** The markup of the panel is not part of [events.js], which addresses its
    controls by fixed ids.  The specification has, for each colour slot, a
    colour picker [qr-...-picker] paired with a text field [qr-...-text] and,
    for each alpha-bearing slot, an opacity slider, "a bounded real-valued
    slider (range [0,1])", with a label.  The kind of a control decides what
    its [value] can hold and what an assignment to it stores. *)
Inductive Kind : Type :=
  | ColorInput      (* <input type="color"> *)
  | RangeInput      (* <input type="range" min="0" max="1" step="any"> *)
  | TextInput       (* <input type="text"> *)
  | OtherElement.   (* the labels, the panel, the menu, ... *)

Definition pickerIds : list string :=
  [ "qr-item-bgcolor-picker"; "qr-item-color-picker"; "qr-title-color-picker";
    "qr-title-border-picker"; "qr-empty-color-picker";
    "qr-menu-bgcolor-picker"; "qr-menu-border-picker" ].

Definition textFieldIds : list string :=
  [ "qr-item-bgcolor-text"; "qr-item-color-text"; "qr-title-color-text";
    "qr-title-border-text"; "qr-empty-color-text";
    "qr-menu-bgcolor-text"; "qr-menu-border-text" ].

Definition sliderIds : list string := [ "qr-item-opacity"; "qr-menu-opacity" ].

Definition kindOf (id : string) : Kind :=
  if existsb (String.eqb id) pickerIds then ColorInput
  else if existsb (String.eqb id) sliderIds then RangeInput
  else if existsb (String.eqb id) textFieldIds then TextInput
  else OtherElement.

(** A valid floating-point number of HTML: an optional [-], digits or a
    fraction [.digits] or both, an optional exponent. *)
Definition is_valid_exponent (s : string) : bool :=
  match s with
  | EmptyString => true
  | String c r =>
      (Ascii.eqb c "e" || Ascii.eqb c "E") &&
      let r' := match r with
                | String "+" r' | String "-" r' => r'
                | _ => r
                end in
      match r' with
      | EmptyString => false
      | _ => all_chars is_digit r'
      end
  end.

Definition is_valid_float (s : string) : bool :=
  let r := match s with String "-" r => r | _ => s end in
  let '(i, r1) := span is_digit r in
  match r1 with
  | String "." r2 =>
      let '(f, r3) := span is_digit r2 in
      match f with
      | EmptyString => false
      | _ => is_valid_exponent r3
      end
  | _ =>
      match i with
      | EmptyString => false
      | _ => is_valid_exponent r1
      end
  end.

(** The value sanitization of a colour input: a valid simple colour is
    converted to ASCII lower case, anything else becomes [#000000]. *)
Definition sanitize_color (v : string) : string :=
  if test_hex6 v then ascii_lowercase v else "#000000".

(** The value sanitization of the sliders: what is not a valid
    floating-point number becomes the default value, the middle of the
    range; a number below the minimum becomes the minimum and one above the
    maximum the maximum (a numeral too large for a double is no number and
    stays). *)
Definition sanitize_range (v : string) : string :=
  if is_valid_float v then
    match JsNumber.of_string v with
    | S754_infinity _ => v
    | x => if ltb x pos_zero then "0" else if ltb one x then "1" else v
    end
  else "0.5".

(** What [element.value = v] stores in a control of the kind [k]. *)
Definition sanitize (k : Kind) (v : string) : string :=
  match k with
  | ColorInput => sanitize_color v
  | RangeInput => sanitize_range v
  | TextInput => strip_newlines v
  | OtherElement => v
  end.

(** A value that a control of the kind [k] can hold. *)
Definition holds (k : Kind) (v : string) : bool :=
  String.eqb (sanitize k v) v.

(** ** The environment: document, settings, style scope, console *)

Record Control : Type := {
  value : string;          (* element.value *)
  textContent : string;    (* element.textContent *)
  display : string         (* element.style.display *)
}.

Inductive Level : Type := LogLevel | WarnLevel | ErrorLevel.

(** What an operation does to its environment, in the order it does it. *)
Inductive Event : Type :=
  | EvGetElement (id : string)            (* document.getElementById(id) *)
  | EvSetValue (id v : string)            (* element.value = v *)
  | EvSetText (id v : string)             (* element.textContent = v *)
  | EvSetDisplay (id v : string)          (* element.style.display = v *)
  | EvModelReplace                        (* settings.menuStyles = ... *)
  | EvModelAssign (key : string)          (* settings.menuStyles.key = ... *)
  | EvModelDelete (key : string)          (* delete settings.menuStyles.key *)
  | EvSetProperty (name v : string).      (* documentElement.style.setProperty *)

Record World : Type := {
  document : gmap string Control;
  menuStyles : option (gmap string jsval);
  rootStyle : gmap string string;
  console : list (Level * string);
  trace : list Event
}.

(** The constants of [constants.js] that [events.js] refers to. *)
Record Constants : Type := {
  EXTENSION_NAME : string;
  ID_MENU : string;
  ID_MENU_STYLE_PANEL : string;
  DEFAULT_MENU_STYLES : gmap string jsval
}.

(** ** State and exceptions *)

Inductive Outcome (A : Type) : Type :=
  | Ok (a : A)
  | Throw (msg : string).
Arguments Ok {A} a.
Arguments Throw {A} msg.

Definition M (A : Type) : Type := World -> Outcome A * World.

#[global] Instance M_ret : MRet M := fun A a w => (Ok a, w).

#[global] Instance M_bind : MBind M := fun A B f m w =>
  match m w with
  | (Ok a, w') => f a w'
  | (Throw e, w') => (Throw e, w')
  end.

Definition throw {A : Type} (msg : string) : M A := fun w => (Throw msg, w).

Definition emit (e : Event) (w : World) : World :=
  {| document := document w; menuStyles := menuStyles w;
     rootStyle := rootStyle w; console := console w;
     trace := trace w ++ [e] |}.

Definition set_document (d : gmap string Control) (w : World) : World :=
  {| document := d; menuStyles := menuStyles w; rootStyle := rootStyle w;
     console := console w; trace := trace w |}.

Definition set_menuStyles (m : option (gmap string jsval)) (w : World) : World :=
  {| document := document w; menuStyles := m; rootStyle := rootStyle w;
     console := console w; trace := trace w |}.

Definition set_rootStyle (r : gmap string string) (w : World) : World :=
  {| document := document w; menuStyles := menuStyles w; rootStyle := r;
     console := console w; trace := trace w |}.

Definition set_console (c : list (Level * string)) (w : World) : World :=
  {| document := document w; menuStyles := menuStyles w;
     rootStyle := rootStyle w; console := c; trace := trace w |}.

(** [document.getElementById(id)] *)
Definition getElementById (id : string) : M (option Control) :=
  fun w => (Ok (document w !! id), emit (EvGetElement id) w).

(** [element.value = v] on the element of id [id]: the control stores what
    its kind makes of [v]. *)
Definition setValue (id v : string) : M unit :=
  fun w =>
    (Ok tt,
     emit (EvSetValue id v)
       (set_document
          (alter (fun c => {| value := sanitize (kindOf id) v;
                              textContent := textContent c;
                              display := display c |}) id (document w)) w)).

(** [element.textContent = v] and [element.style.display = v]. *)

Definition setTextContent (id v : string) : M unit :=
  fun w =>
    (Ok tt,
     emit (EvSetText id v)
       (set_document
          (alter (fun c => {| value := value c; textContent := v;
                              display := display c |}) id (document w)) w)).

Definition setDisplay (id v : string) : M unit :=
  fun w =>
    (Ok tt,
     emit (EvSetDisplay id v)
       (set_document
          (alter (fun c => {| value := value c; textContent := textContent c;
                              display := v |}) id (document w)) w)).

(** [settings.menuStyles] *)
Definition getMenuStyles : M (option (gmap string jsval)) :=
  fun w => (Ok (menuStyles w), w).

(** [settings.menuStyles = o] *)
Definition replaceMenuStyles (o : gmap string jsval) : M unit :=
  fun w => (Ok tt, emit EvModelReplace (set_menuStyles (Some o) w)).

(** [settings.menuStyles.key = v] *)
Definition assignMenuStyle (key : string) (v : jsval) : M unit :=
  fun w =>
    match menuStyles w with
    | Some o => (Ok tt, emit (EvModelAssign key)
                          (set_menuStyles (Some (<[key := v]> o)) w))
    | None => (Throw "TypeError: cannot set properties of undefined", w)
    end.

(** [delete settings.menuStyles.key] *)
Definition deleteMenuStyle (key : string) : M unit :=
  fun w =>
    match menuStyles w with
    | Some o => (Ok tt, emit (EvModelDelete key)
                          (set_menuStyles (Some (delete key o)) w))
    | None => (Throw "TypeError: cannot convert undefined to object", w)
    end.

(** [document.documentElement.style.setProperty(name, v)] *)
Definition setProperty (name : string) (v : jsval) : M unit :=
  fun w =>
    (Ok tt,
     emit (EvSetProperty name (to_js_string v))
       (set_rootStyle (<[name := to_js_string v]> (rootStyle w)) w)).

Definition console_write (l : Level) (msg : string) : M unit :=
  fun w => (Ok tt, set_console (console w ++ [(l, msg)]) w).

(** ** ColorCodec *)

(** [parseInt(s, radix)] for [radix] undefined ([None]) or 16: blanks are
    skipped, a sign is read, [0x] selects radix 16 ([radix_prefix]), and the
    longest run of digits of the radix is the value; [None] is NaN.  The
    results the code uses are integers below 2^53, which a double holds
    exactly, except in [rgbaToHex], see [channel_hex]. *)
Definition radix_prefix (radix : option N) (r : string) : N * string :=
  match radix, r with
  | (None | Some 16%N), String "0" (String ("x" | "X") r') => (16%N, r')
  | None, _ => (10%N, r)
  | Some n, _ => (n, r)
  end.

Definition parseInt (s : string) (radix : option N) : option Z :=
  let '(neg, r) := scan_sign (trimStart s) in
  let '(R, r1) := radix_prefix radix r in
  match span (is_radix_digit R) r1 with
  | (EmptyString, _) => None
  | (d, _) =>
      let v := Z.of_N (digits_value R d) in
      Some (if neg then (- v)%Z else v)
  end.

(** [`${n}`] for the result of [parseInt] on two hexadecimal digits. *)
Definition int_to_string (n : option Z) : string :=
  match n with
  | None => "NaN"
  | Some z =>
      if (z <? 0)%Z then "-" ++ dec_string (Z.to_N (- z)) else dec_string (Z.to_N z)
  end.

(** The literal [0.7]. *)
Definition default_opacity : number := of_decimal false 7 (-1).

(** [(opacity !== null && opacity !== undefined && opacity >= 0 &&
      opacity <= 1) ? opacity : 0.7] *)
Definition validOpacity (opacity : jsval) : jsval :=
  match opacity with
  | JNull | JUndefined => JNum default_opacity
  | _ =>
      if leb pos_zero (to_number opacity) && leb (to_number opacity) one
      then opacity
      else JNum default_opacity
  end.

(** The last five lines of [hexToRgba]: the [#] is removed, the three pairs
    of digits are read in radix 16 and the template is filled. *)
Definition rgbaString (hex : string) (validOpacity : jsval) : string :=
  let hex := replace "#" "" hex in
  let r := parseInt (substring 0 2 hex) (Some 16%N) in
  let g := parseInt (substring 2 4 hex) (Some 16%N) in
  let b := parseInt (substring 4 6 hex) (Some 16%N) in
  "rgba(" ++ int_to_string r ++ ", " ++ int_to_string g ++ ", "
    ++ int_to_string b ++ ", " ++ to_js_string validOpacity ++ ")".

Definition hexToRgba (hex opacity : jsval) : M string :=
  hex ← (if negb (to_boolean hex) || negb (test_hex6 (to_js_string hex))
         then
           let hex := "#3c3c3c" in
           console_write WarnLevel
             ("Invalid hex color provided: " ++ hex ++ ". Using default.");;
           mret (JStr hex)
         else mret hex);
  let validOpacity := validOpacity opacity in
  match hex with
  | JStr hex => mret (rgbaString hex validOpacity)
  | _ => throw "TypeError: hex.replace is not a function"
  end.

(** [Math.max(0, Math.min(255, r)).toString(16).padStart(2, '0')].
    [parseInt] reads a run of decimal digits here; on a run too long for a
    double it rounds, but rounding is monotone and keeps 255 and every
    integer below it, so the clamped value is the one of the exact
    integer. *)
Definition channel_hex (r : option Z) : string :=
  match r with
  | None => "NaN"
  | Some z => padStart0 2 (hex_string (Z.to_N (Z.max 0 (Z.min 255 z))))
  end.

Definition rgbaToHex (rgba : jsval) : string :=
  if negb (to_boolean rgba) || negb (is_string rgba) then "#000000"
  else
    let rgba := to_js_string rgba in
    match match_rgba rgba with
    | None => if test_hex6 rgba then toUpperCase rgba else "#000000"
    | Some (m1, m2, m3, _) =>
        let r := parseInt m1 None in
        let g := parseInt m2 None in
        let b := parseInt m3 None in
        let hexR := channel_hex r in
        let hexG := channel_hex g in
        let hexB := channel_hex b in
        toUpperCase ("#" ++ hexR ++ hexG ++ hexB)
    end.

Definition getOpacityFromRgba (rgba : jsval) : number :=
  if negb (to_boolean rgba) || negb (is_string rgba) then one
  else
    match match_rgba (to_js_string rgba) with
    | Some (_, _, _, Some m4) =>
        let opacity := parseFloat m4 in
        math_max pos_zero (math_min one opacity)
    | _ => one
    end.

(** ** FieldSync: the listeners of [setupColorPickerSync] *)

(** [picker.id.replace('-picker', '-text')] *)
Definition textId (pickerId : string) : string :=
  replace "-picker" "-text" pickerId.

(** The closures of [setupColorPickerSync] hold the two elements they were
    created for; an element is denoted by its id, and [valueOf] reads
    [element.value] through such a reference. *)
Definition valueOf (id : string) : M string :=
  fun w => (Ok (match document w !! id with
                | Some c => value c
                | None => EmptyString
                end), w).

(** The listener of [input] on the picker. *)
Definition picker_onInput (picker textInput : string) : M unit :=
  v ← valueOf picker;
  setValue textInput (toUpperCase v).

(** The listener of [input] on the text field. *)
Definition textInput_onInput (picker textInput : string) : M unit :=
  v ← valueOf textInput;
  let value := trim v in
  if test_opt_hash_hex6 value then
    let color := if startsWith "#" value then value else "#" ++ value in
    setValue picker color;;
    setValue textInput (toUpperCase color)
  else mret tt.

(** The listener of [change] on the text field. *)
Definition textInput_onChange (picker textInput : string) : M unit :=
  v ← valueOf textInput;
  let value := trim v in
  if test_opt_hash_hex6 value then
    let color := if startsWith "#" value then value else "#" ++ value in
    setValue picker color;;
    setValue textInput (toUpperCase color)
  else
    p ← valueOf picker;
    setValue textInput (toUpperCase p).

(** The body of the [forEach] of [setupColorPickerSync] for one picker:
    nothing without a text field, else the text field is initialised (and
    the three listeners above are installed). *)
Definition syncColorPicker (picker : string) : M unit :=
  textInput ← getElementById (textId picker);
  match textInput with
  | None => mret tt
  | Some _ =>
      v ← valueOf picker;
      setValue (textId picker) (toUpperCase v)
  end.

(** [setupColorPickerSync]; [pickers] are the ids of the elements of class
    [qr-color-picker], in document order. *)
Fixpoint setupColorPickerSync (pickers : list string) : M unit :=
  match pickers with
  | [] => mret tt
  | picker :: rest => syncColorPicker picker;; setupColorPickerSync rest
  end.

(** ** The style panel *)

Section Panel.

Variable C : Constants.

Definition safeSetValue (id : string) (v : jsval) : M unit :=
  element ← getElementById id;
  match element with
  | Some _ => setValue id (to_js_string v)
  | None => mret tt
  end.

Definition safeSetText (id : string) (v : jsval) : M unit :=
  element ← getElementById id;
  match element with
  | Some _ => setTextContent id (to_js_string v)
  | None => mret tt
  end.

(** [v.toUpperCase()] on a value: a TypeError unless [v] is a string. *)
Definition toUpperCase_of (v : jsval) : M jsval :=
  match v with
  | JStr s => mret (JStr (toUpperCase s))
  | _ => throw "TypeError: toUpperCase is not a function"
  end.

(** One plain colour slot of [loadMenuStylesIntoPanel]. *)
Definition loadPlainSlot (v : jsval) (fallback picker text : string) : M unit :=
  let color := js_or v (JStr fallback) in
  safeSetValue picker color;;
  upper ← toUpperCase_of color;
  safeSetValue text upper.

Definition loadMenuStylesIntoPanel : M unit :=
  menuStyles ← getMenuStyles;
  let styles :=
    match menuStyles with
    | Some o => o
    | None => json_clone (DEFAULT_MENU_STYLES C)
    end in
  let itemBg := get_prop styles "itemBgColor" in
  let itemBgColorHex :=
    if to_boolean itemBg && is_string itemBg then rgbaToHex itemBg else "#3c3c3c" in
  safeSetValue "qr-item-bgcolor-picker" (JStr itemBgColorHex);;
  safeSetValue "qr-item-bgcolor-text" (JStr (toUpperCase itemBgColorHex));;
  let itemOpacity :=
    if to_boolean itemBg && is_string itemBg
    then getOpacityFromRgba itemBg else default_opacity in
  safeSetValue "qr-item-opacity" (JNum itemOpacity);;
  safeSetText "qr-item-opacity-value" (JNum itemOpacity);;
  loadPlainSlot (get_prop styles "itemTextColor") "#ffffff"
    "qr-item-color-picker" "qr-item-color-text";;
  loadPlainSlot (get_prop styles "titleColor") "#cccccc"
    "qr-title-color-picker" "qr-title-color-text";;
  loadPlainSlot (get_prop styles "titleBorderColor") "#444444"
    "qr-title-border-picker" "qr-title-border-text";;
  loadPlainSlot (get_prop styles "emptyTextColor") "#666666"
    "qr-empty-color-picker" "qr-empty-color-text";;
  let menuBg := get_prop styles "menuBgColor" in
  let menuBgColorHex :=
    if to_boolean menuBg && is_string menuBg then rgbaToHex menuBg else "#000000" in
  safeSetValue "qr-menu-bgcolor-picker" (JStr menuBgColorHex);;
  safeSetValue "qr-menu-bgcolor-text" (JStr (toUpperCase menuBgColorHex));;
  let menuOpacity :=
    if to_boolean menuBg && is_string menuBg
    then getOpacityFromRgba menuBg else of_decimal false 85 (-2) in
  safeSetValue "qr-menu-opacity" (JNum menuOpacity);;
  safeSetText "qr-menu-opacity-value" (JNum menuOpacity);;
  loadPlainSlot (get_prop styles "menuBorderColor") "#555555"
    "qr-menu-border-picker" "qr-menu-border-text".

Definition handleMenuStyleButtonClick : M unit :=
  stylePanel ← getElementById (ID_MENU_STYLE_PANEL C);
  match stylePanel with
  | Some _ =>
      loadMenuStylesIntoPanel;;
      setDisplay (ID_MENU_STYLE_PANEL C) "block"
  | None => mret tt
  end.

Definition closeMenuStylePanel : M unit :=
  stylePanel ← getElementById (ID_MENU_STYLE_PANEL C);
  match stylePanel with
  | Some _ => setDisplay (ID_MENU_STYLE_PANEL C) "none"
  | None => mret tt
  end.

Definition updateMenuStylesUI : M unit :=
  menuStyles ← getMenuStyles;
  let styles :=
    match menuStyles with
    | Some o => o
    | None => DEFAULT_MENU_STYLES C
    end in
  menu ← getElementById (ID_MENU C);
  match menu with
  | None => mret tt
  | Some _ =>
      setProperty "--qr-item-bg-color"
        (js_or (get_prop styles "itemBgColor") (JStr "rgba(60, 60, 60, 0.7)"));;
      setProperty "--qr-item-text-color"
        (js_or (get_prop styles "itemTextColor") (JStr "white"));;
      setProperty "--qr-title-color"
        (js_or (get_prop styles "titleColor") (JStr "#ccc"));;
      setProperty "--qr-title-border-color"
        (js_or (get_prop styles "titleBorderColor") (JStr "#444"));;
      setProperty "--qr-empty-text-color"
        (js_or (get_prop styles "emptyTextColor") (JStr "#666"));;
      setProperty "--qr-menu-bg-color"
        (js_or (get_prop styles "menuBgColor") (JStr "rgba(0, 0, 0, 0.85)"));;
      setProperty "--qr-menu-border-color"
        (js_or (get_prop styles "menuBorderColor") (JStr "#555"))
  end.

(** [safeGetValue] of [applyMenuStyles] *)
Definition safeGetValue (id : string) (defaultValue : jsval) : M jsval :=
  element ← getElementById id;
  mret (match element with
        | Some e => JStr (value e)
        | None => defaultValue
        end).

(** [getColorValue] of [applyMenuStyles] *)
Definition getColorValue (pickerId : string) : M jsval :=
  textInput ← getElementById (pickerId ++ "-text");
  match textInput with
  | Some t =>
      if test_hex6 (value t) then mret (JStr (value t))
      else safeGetValue pickerId JNull
  | None => safeGetValue pickerId JNull
  end.

Definition applyMenuStyles : M unit :=
  menuStyles ← getMenuStyles;
  match menuStyles with
  | None => replaceMenuStyles (json_clone (DEFAULT_MENU_STYLES C))
  | Some _ => mret tt
  end;;
  itemBgColorHex ← getColorValue "qr-item-bgcolor-picker";
  itemOpacity ← safeGetValue "qr-item-opacity" (JNum default_opacity);
  itemBgColor ← hexToRgba itemBgColorHex itemOpacity;
  assignMenuStyle "itemBgColor" (JStr itemBgColor);;
  itemTextColor ← getColorValue "qr-item-color-picker";
  assignMenuStyle "itemTextColor" (js_or itemTextColor (JStr "#ffffff"));;
  titleColor ← getColorValue "qr-title-color-picker";
  assignMenuStyle "titleColor" (js_or titleColor (JStr "#cccccc"));;
  titleBorderColor ← getColorValue "qr-title-border-picker";
  assignMenuStyle "titleBorderColor" (js_or titleBorderColor (JStr "#444444"));;
  emptyTextColor ← getColorValue "qr-empty-color-picker";
  assignMenuStyle "emptyTextColor" (js_or emptyTextColor (JStr "#666666"));;
  menuBgColorHex ← getColorValue "qr-menu-bgcolor-picker";
  menuOpacity ← safeGetValue "qr-menu-opacity" (JNum (of_decimal false 85 (-2)));
  menuBgColor ← hexToRgba menuBgColorHex menuOpacity;
  assignMenuStyle "menuBgColor" (JStr menuBgColor);;
  menuBorderColor ← getColorValue "qr-menu-border-picker";
  assignMenuStyle "menuBorderColor" (js_or menuBorderColor (JStr "#555555"));;
  deleteMenuStyle "followTheme";;
  updateMenuStylesUI;;
  closeMenuStylePanel;;
  console_write LogLevel
    ("[" ++ EXTENSION_NAME C ++ "] Menu styles applied. Remember to save settings.").

Definition resetMenuStyles : M unit :=
  replaceMenuStyles (json_clone (DEFAULT_MENU_STYLES C));;
  loadMenuStylesIntoPanel;;
  updateMenuStylesUI;;
  console_write LogLevel
    ("[" ++ EXTENSION_NAME C
       ++ "] Menu styles reset to default. Remember to save settings.").

End Panel.

(** ** Vocabulary of the specification *)

(** Value and final environment of a run. *)
Definition result {A : Type} (m : M A) (w : World) : Outcome A := fst (m w).
Definition after {A : Type} (m : M A) (w : World) : World := snd (m w).

(** [rgba(R, G, B, a)] with R, G and B in base 10 without padding. *)
Definition rgba_text (r g b : N) (a : string) : string :=
  "rgba(" ++ dec_string r ++ ", " ++ dec_string g ++ ", " ++ dec_string b
    ++ ", " ++ a ++ ")".

(** A leading [#] is added unless there is one. *)
Definition with_hash (v : string) : string :=
  if startsWith "#" v then v else "#" ++ v.

(** The channels of a six-digit colour [#RRGGBB]. *)
Definition hex_pair (a b : ascii) : N :=
  (16 * match hex_value a with Some d => d | None => 0 end
   + match hex_value b with Some d => d | None => 0 end)%N.

Definition channels (hex : string) : N * N * N :=
  match hex with
  | String _ (String a (String b (String c (String d (String e (String f _)))))) =>
      (hex_pair a b, hex_pair c d, hex_pair e f)
  | _ => (0, 0, 0)%N
  end.

(** A non-empty run of decimal digits, and its value. *)
Definition is_digits (s : string) : bool :=
  match s with
  | EmptyString => false
  | _ => all_chars is_digit s
  end.

(** The inputs of the decoder of the form [rgba(r,g,b,a)]: three runs of
    digits, blanks allowed after each comma, and an alpha. *)
Definition rgba_input (r w1 g w2 b w3 a : string) : string :=
  "rgba(" ++ r ++ "," ++ w1 ++ g ++ "," ++ w2 ++ b ++ "," ++ w3 ++ a ++ ")".

(** The number [x] lies in [0, 1]. *)
Definition in_unit_interval (x : number) : bool :=
  leb pos_zero x && leb x one.

(** A numeral, written as a floating-point number, that denotes a number
    of [0, 1]. *)
Definition is_alpha_numeral (a : string) : bool :=
  is_valid_float a && in_unit_interval (JsNumber.of_string a).

(** A string without its last code unit, and that code unit. *)
Fixpoint split_last (s : string) : option (string * ascii) :=
  match s with
  | EmptyString => None
  | String c s' =>
      match split_last s' with
      | None => Some (EmptyString, c)
      | Some (init, last) => Some (String c init, last)
      end
  end.

(** A valid encoded colour of an alpha-bearing slot: [rgba(] R [,] G [,] B
    [,] a [)] and nothing else, blanks allowed after the commas, with R, G
    and B integers of [0, 255] and a a numeral of [0, 1]. *)
Definition is_valid_rgba (s : string) : bool :=
  match
    r0 ← expect_prefix "rgba(" s;
    '(c1, r1) ← some_of is_digit r0;
    r2 ← expect "," r1;
    '(c2, r3) ← some_of is_digit (skip_ws r2);
    r4 ← expect "," r3;
    '(c3, r5) ← some_of is_digit (skip_ws r4);
    r6 ← expect "," r5;
    '(a, last) ← split_last (skip_ws r6);
    Some (c1, c2, c3, a, last)
  with
  | Some (c1, c2, c3, a, last) =>
      Ascii.eqb last ")" &&
      (digits_value 10 c1 <=? 255)%N && (digits_value 10 c2 <=? 255)%N &&
      (digits_value 10 c3 <=? 255)%N && is_alpha_numeral a
  | None => false
  end.

(** *** The opacity argument of [hexToRgba] *)

(** [hexToRgba] is called by [applyMenuStyles] alone, with the value of a
    slider, which is a valid floating-point number, or with a number when
    the slider is missing.  Such an argument is never a boolean and never a
    blank string; [null] and [undefined] are arguments the function
    provides for. *)
Definition is_blank (s : string) : bool := all_chars is_ws s.

Definition opacity_argument (v : jsval) : bool :=
  match v with
  | JBool _ => false
  | JStr s => negb (is_blank s)
  | _ => true
  end.

(** The number an opacity argument denotes, [None] when it denotes none:
    NaN, a string that is not a numeric literal, [null], [undefined]. *)
Definition numeric (v : jsval) : option number :=
  match v with
  | JNum x => if is_nan x then None else Some x
  | JStr s =>
      if is_blank s || is_nan (JsNumber.of_string s) then None
      else Some (JsNumber.of_string s)
  | _ => None
  end.

(** *** The first code unit of a numeral *)

(** The first code unit of a string, if any, satisfies [p]. *)
Definition head_is (p : ascii -> bool) (s : string) : bool :=
  match s with String c _ => p c | EmptyString => true end.

(** What [String] of a number can start with: a digit, a sign, or the first
    letter of [NaN] or [Infinity]. *)
Definition numeral_start (c : ascii) : bool :=
  is_digit c || Ascii.eqb c "-" || Ascii.eqb c "N" || Ascii.eqb c "I".

(** A number that is not below zero: no negative sign, on a zero either. *)
Definition not_negative (x : number) : Prop :=
  match x with
  | S754_zero true | S754_infinity true | S754_finite true _ _ => False
  | _ => True
  end.

(** *** Order of the effects *)

(** The ids under which [applyMenuStyles] looks for a form control. *)
Definition formControlIds : list string :=
  pickerIds ++ map (fun p => p ++ "-text") pickerIds
    ++ [ "qr-item-opacity"; "qr-menu-opacity" ].

Definition is_lookup_of (ids : list string) (e : Event) : bool :=
  match e with
  | EvGetElement id => existsb (String.eqb id) ids
  | _ => false
  end.

Definition is_form_read : Event -> bool := is_lookup_of formControlIds.

Definition is_model_write (e : Event) : bool :=
  match e with
  | EvModelReplace | EvModelAssign _ | EvModelDelete _ => true
  | _ => false
  end.

Definition is_render (e : Event) : bool :=
  match e with EvSetProperty _ _ => true | _ => false end.

Definition is_close (e : Event) : bool :=
  match e with EvSetDisplay _ "none" => true | _ => false end.

(** The slots in the order [applyMenuStyles] treats them: the picker (the
    text field is looked up under the picker's id followed by [-text]), the
    slider if the slot bears an alpha, and the key of the model. *)
Definition slots : list (string * list string * string) :=
  [ ("qr-item-bgcolor-picker", ["qr-item-opacity"], "itemBgColor");
    ("qr-item-color-picker", [], "itemTextColor");
    ("qr-title-color-picker", [], "titleColor");
    ("qr-title-border-picker", [], "titleBorderColor");
    ("qr-empty-color-picker", [], "emptyTextColor");
    ("qr-menu-bgcolor-picker", ["qr-menu-opacity"], "menuBgColor");
    ("qr-menu-border-picker", [], "menuBorderColor") ].

(** A lookup of a control of the slot, and the assignment of the slot. *)
Definition slot_read (slot : string * list string * string) : Event -> bool :=
  let '(pickerId, sliders, _) := slot in
  is_lookup_of ((pickerId ++ "-text") :: pickerId :: sliders).

Definition slot_write (slot : string * list string * string) (e : Event) : bool :=
  let '(_, _, key) := slot in
  match e with
  | EvModelAssign k => String.eqb k key
  | _ => false
  end.

(** Every [P] event comes before every [Q] event: once a [Q] event has
    happened no [P] event follows. *)
Fixpoint all_before (P Q : Event -> bool) (t : list Event) : bool :=
  match t with
  | [] => true
  | e :: t' => (if Q e then forallb (fun e' => negb (P e')) t' else true)
               && all_before P Q t'
  end.

(** *** The effects of [applyMenuStyles], step by step *)

Definition add_events (evs : list Event) (w : World) : World :=
  {| document := document w; menuStyles := menuStyles w;
     rootStyle := rootStyle w; console := console w;
     trace := trace w ++ evs |}.

Definition add_console (msgs : list (Level * string)) (w : World) : World :=
  {| document := document w; menuStyles := menuStyles w;
     rootStyle := rootStyle w; console := console w ++ msgs;
     trace := trace w |}.

Section Readings.

Variable d : gmap string Control.

(** What [safeGetValue(id, defaultValue)] returns on the document [d]. *)
Definition valueOr (id : string) (defaultValue : jsval) : jsval :=
  match d !! id with
  | Some e => JStr (value e)
  | None => defaultValue
  end.

(** Whether [getColorValue(pickerId)] takes the text field. *)
Definition textFieldWins (pickerId : string) : bool :=
  match d !! (pickerId ++ "-text") with
  | Some t => test_hex6 (value t)
  | None => false
  end.

(** What [getColorValue(pickerId)] returns on [d], and its lookups. *)
Definition colorValue (pickerId : string) : jsval :=
  if textFieldWins pickerId
  then valueOr (pickerId ++ "-text") JNull
  else valueOr pickerId JNull.

Definition colorLookups (pickerId : string) : list Event :=
  if textFieldWins pickerId
  then [EvGetElement (pickerId ++ "-text")]
  else [EvGetElement (pickerId ++ "-text"); EvGetElement pickerId].

End Readings.

(** The colour [hexToRgba] encodes and the warning it writes. *)
Definition hex_is_valid (hex : jsval) : bool :=
  to_boolean hex && test_hex6 (to_js_string hex).

Definition hex_or_fallback (hex : jsval) : string :=
  if hex_is_valid hex then to_js_string hex else "#3c3c3c".

Definition hex_warning (hex : jsval) : list (Level * string) :=
  if hex_is_valid hex then []
  else [(WarnLevel, "Invalid hex color provided: #3c3c3c. Using default.")].

Definition encoded (hex opacity : jsval) : string :=
  rgbaString (hex_or_fallback hex) (validOpacity opacity).

Section Applied.

Variable C : Constants.
Variable w : World.

(** The model [applyMenuStyles] starts from. *)
Definition baseModel : gmap string jsval :=
  match menuStyles w with
  | Some o => o
  | None => json_clone (DEFAULT_MENU_STYLES C)
  end.

Definition itemBgEncoded : string :=
  encoded (colorValue (document w) "qr-item-bgcolor-picker")
          (valueOr (document w) "qr-item-opacity" (JNum default_opacity)).

Definition menuBgEncoded : string :=
  encoded (colorValue (document w) "qr-menu-bgcolor-picker")
          (valueOr (document w) "qr-menu-opacity" (JNum (of_decimal false 85 (-2)))).

Definition plainColor (pickerId fallback : string) : jsval :=
  js_or (colorValue (document w) pickerId) (JStr fallback).

(** The model [applyMenuStyles] leaves. *)
Definition appliedModel : gmap string jsval :=
  delete "followTheme"
    (<["menuBorderColor" := plainColor "qr-menu-border-picker" "#555555"]>
    (<["menuBgColor" := JStr menuBgEncoded]>
    (<["emptyTextColor" := plainColor "qr-empty-color-picker" "#666666"]>
    (<["titleBorderColor" := plainColor "qr-title-border-picker" "#444444"]>
    (<["titleColor" := plainColor "qr-title-color-picker" "#cccccc"]>
    (<["itemTextColor" := plainColor "qr-item-color-picker" "#ffffff"]>
    (<["itemBgColor" := JStr itemBgEncoded]> baseModel))))))).

(** The events of one slot: the lookups of its controls, then its
    assignment. *)
Definition slotEvents (pickerId : string) (slider : list string) (key : string)
  : list Event :=
  colorLookups (document w) pickerId ++ map EvGetElement slider
    ++ [EvModelAssign key].

Definition initEvents : list Event :=
  match menuStyles w with
  | None => [EvModelReplace]
  | Some _ => []
  end.

Definition modelPhase : list Event :=
  initEvents
    ++ slotEvents "qr-item-bgcolor-picker" ["qr-item-opacity"] "itemBgColor"
    ++ slotEvents "qr-item-color-picker" [] "itemTextColor"
    ++ slotEvents "qr-title-color-picker" [] "titleColor"
    ++ slotEvents "qr-title-border-picker" [] "titleBorderColor"
    ++ slotEvents "qr-empty-color-picker" [] "emptyTextColor"
    ++ slotEvents "qr-menu-bgcolor-picker" ["qr-menu-opacity"] "menuBgColor"
    ++ slotEvents "qr-menu-border-picker" [] "menuBorderColor"
    ++ [EvModelDelete "followTheme"].

(** The style variables [updateMenuStylesUI] sets from a model. *)
Definition styleVariables (o : gmap string jsval) : list (string * string) :=
  [ ("--qr-item-bg-color",
     to_js_string (js_or (get_prop o "itemBgColor") (JStr "rgba(60, 60, 60, 0.7)")));
    ("--qr-item-text-color",
     to_js_string (js_or (get_prop o "itemTextColor") (JStr "white")));
    ("--qr-title-color",
     to_js_string (js_or (get_prop o "titleColor") (JStr "#ccc")));
    ("--qr-title-border-color",
     to_js_string (js_or (get_prop o "titleBorderColor") (JStr "#444")));
    ("--qr-empty-text-color",
     to_js_string (js_or (get_prop o "emptyTextColor") (JStr "#666")));
    ("--qr-menu-bg-color",
     to_js_string (js_or (get_prop o "menuBgColor") (JStr "rgba(0, 0, 0, 0.85)")));
    ("--qr-menu-border-color",
     to_js_string (js_or (get_prop o "menuBorderColor") (JStr "#555"))) ].

Definition renderPhase : list Event :=
  EvGetElement (ID_MENU C) ::
  match document w !! ID_MENU C with
  | Some _ => map (fun nv => EvSetProperty (fst nv) (snd nv)) (styleVariables appliedModel)
  | None => []
  end.

Definition closePhase : list Event :=
  EvGetElement (ID_MENU_STYLE_PANEL C) ::
  match document w !! ID_MENU_STYLE_PANEL C with
  | Some _ => [EvSetDisplay (ID_MENU_STYLE_PANEL C) "none"]
  | None => []
  end.

End Applied.

(** [element.style.display = 'none'] *)
Definition hidePanel (c : Control) : Control :=
  {| value := value c; textContent := textContent c; display := "none" |}.

(** The code units accepted by [[0-9A-F]] under the flag [i]. *)
Definition hex_digit_list : list ascii :=
  list_ascii_of_string "0123456789abcdefABCDEF".

(** An operation that leaves [settings.menuStyles] as it found it, whether
    it returns or throws. *)
Definition keeps_model {A : Type} (m : M A) : Prop :=
  forall w, menuStyles (after m w) = menuStyles w.

(** *** A sample panel *)

(** Constants in the style of [constants.js]; the default styles are the
    fallbacks [updateMenuStylesUI] and [loadMenuStylesIntoPanel] name. *)
Definition sampleConstants : Constants :=
  {| EXTENSION_NAME := "quick-reply-menu";
     ID_MENU := "quick-reply-menu";
     ID_MENU_STYLE_PANEL := "quick-reply-menu-style-panel";
     DEFAULT_MENU_STYLES :=
       list_to_map
         [ ("itemBgColor", JStr "rgba(60, 60, 60, 0.7)");
           ("itemTextColor", JStr "#ffffff");
           ("titleColor", JStr "#cccccc");
           ("titleBorderColor", JStr "#444444");
           ("emptyTextColor", JStr "#666666");
           ("menuBgColor", JStr "rgba(0, 0, 0, 0.85)");
           ("menuBorderColor", JStr "#555555") ] |}.

Definition control (v : string) : Control :=
  {| value := v; textContent := EmptyString; display := "block" |}.

(** An open panel over a settings object from an earlier version (it still
    has [followTheme]); the text field of the item background holds
    [itemBgText] and the slider of the item opacity holds [itemOpacity]. *)
Definition samplePanel (itemBgText itemOpacity : string) : World :=
  {| document :=
       list_to_map
         [ ("quick-reply-menu", control EmptyString);
           ("quick-reply-menu-style-panel", control EmptyString);
           ("qr-item-bgcolor-picker", control "#3c3c3c");
           ("qr-item-bgcolor-text", control itemBgText);
           ("qr-item-opacity", control itemOpacity);
           ("qr-item-opacity-value", control EmptyString);
           ("qr-item-color-picker", control "#ffffff");
           ("qr-item-color-text", control "#FFFFFF");
           ("qr-title-color-picker", control "#cccccc");
           ("qr-title-color-text", control "#CCCCCC");
           ("qr-title-border-picker", control "#444444");
           ("qr-title-border-text", control "#444444");
           ("qr-empty-color-picker", control "#666666");
           ("qr-empty-color-text", control "#666666");
           ("qr-menu-bgcolor-picker", control "#000000");
           ("qr-menu-bgcolor-text", control "#000000");
           ("qr-menu-opacity", control "0.85");
           ("qr-menu-opacity-value", control EmptyString);
           ("qr-menu-border-picker", control "#555555");
           ("qr-menu-border-text", control "#555555") ];
     menuStyles :=
       Some (<["followTheme" := JBool true]> (DEFAULT_MENU_STYLES sampleConstants));
     rootStyle := ∅;
     console := [];
     trace := [] |}.

(** The code units of the class [\d]. *)
Definition digit_list : list ascii := list_ascii_of_string "0123456789".

(** [max(0, min(1, x))] by cases: 1 above 1, 0 below 0, [x] itself in
    between; a zero of either sign gives +0. *)
Definition clamp01 (x : number) : number :=
  if ltb one x then one
  else if ltb x pos_zero then pos_zero
  else match x with S754_zero _ => pos_zero | _ => x end.

(** * Properties *)

(** ** Code units *)

Lemma hex_digit_cases (c : ascii) :
  is_hex_digit c = true -> In c hex_digit_list.
Proof.
  intros H.
  destruct c as [[] [] [] [] [] [] [] []]; try discriminate H;
    simpl; repeat first [left; reflexivity | right].
Qed.

Lemma all_hex_digits (P : ascii -> Prop) :
  Forall P hex_digit_list -> forall c, is_hex_digit c = true -> P c.
Proof.
  intros HP c Hc. rewrite Forall_forall in HP. apply HP.
  apply list_elem_of_In. by apply hex_digit_cases.
Qed.

(** ** Running the operations *)

Lemma add_console_nil (w : World) : add_console [] w = w.
Proof. destruct w; unfold add_console; simpl. by rewrite app_nil_r. Qed.

Lemma bind_run {A B : Type} (m : M A) (f : A -> M B) (w w' : World) (a : A) :
  m w = (Ok a, w') -> (m ≫= f) w = f a w'.
Proof. intros H. unfold mbind, M_bind. by rewrite H. Qed.

Lemma safeGetValue_run (id : string) (dflt : jsval) (w : World) :
  safeGetValue id dflt w
  = (Ok (valueOr (document w) id dflt), add_events [EvGetElement id] w).
Proof. reflexivity. Qed.

Lemma getColorValue_run (pickerId : string) (w : World) :
  getColorValue pickerId w
  = (Ok (colorValue (document w) pickerId),
     add_events (colorLookups (document w) pickerId) w).
Proof.
  unfold getColorValue, colorValue, colorLookups, textFieldWins, valueOr.
  unfold mbind, M_bind, getElementById. simpl.
  destruct (document w !! (pickerId ++ "-text")) as [t|] eqn:Ht; simpl.
  - destruct (test_hex6 (value t)); simpl; [reflexivity|].
    rewrite safeGetValue_run. simpl. f_equal. unfold add_events; simpl.
    by rewrite <- app_assoc.
  - rewrite safeGetValue_run. simpl. f_equal. unfold add_events; simpl.
    by rewrite <- app_assoc.
Qed.

Lemma colorValue_shape (d : gmap string Control) (pickerId : string) :
  colorValue d pickerId = JNull \/ exists s, colorValue d pickerId = JStr s.
Proof.
  unfold colorValue, valueOr.
  destruct (textFieldWins d pickerId).
  - destruct (d !! (pickerId ++ "-text")); eauto.
  - destruct (d !! pickerId); eauto.
Qed.

Lemma test_hex6_nonempty (s : string) :
  test_hex6 s = true -> to_boolean (JStr s) = true.
Proof. by destruct s. Qed.

Lemma hexToRgba_run (hex opacity : jsval) (w : World) :
  (hex = JNull \/ exists s, hex = JStr s) ->
  hexToRgba hex opacity w
  = (Ok (encoded hex opacity), add_console (hex_warning hex) w).
Proof.
  intros [-> | [s ->]].
  - reflexivity.
  - unfold hexToRgba, encoded, hex_or_fallback, hex_warning, hex_is_valid.
    simpl to_js_string.
    destruct (test_hex6 s) eqn:Hs.
    + rewrite (test_hex6_nonempty s Hs). simpl.
      unfold mbind, M_bind, mret, M_ret. by rewrite add_console_nil.
    + rewrite andb_false_r, orb_true_r. reflexivity.
Qed.

Lemma assignMenuStyle_run (key : string) (v : jsval) (o : gmap string jsval)
    (w : World) :
  menuStyles w = Some o ->
  assignMenuStyle key v w
  = (Ok tt, emit (EvModelAssign key) (set_menuStyles (Some (<[key := v]> o)) w)).
Proof. intros H. unfold assignMenuStyle. by rewrite H. Qed.

Lemma deleteMenuStyle_run (key : string) (o : gmap string jsval) (w : World) :
  menuStyles w = Some o ->
  deleteMenuStyle key w
  = (Ok tt, emit (EvModelDelete key) (set_menuStyles (Some (delete key o)) w)).
Proof. intros H. unfold deleteMenuStyle. by rewrite H. Qed.

(** The environment is kept as a record of its five fields while a run is
    unfolded step by step. *)
Ltac norm_world :=
  cbv beta iota delta
    [emit set_menuStyles add_events add_console set_document set_rootStyle
     set_console document menuStyles rootStyle console trace].

Ltac norm_fields :=
  cbn [fst snd emit set_menuStyles add_events add_console set_document
       set_rootStyle set_console document menuStyles rootStyle console trace]
    in *.

Ltac run_color :=
  match goal with
  | |- context [ (getColorValue ?p ≫= _) ?w ] =>
      rewrite (bind_run _ _ _ _ _ (getColorValue_run p w)); norm_world
  end.

Ltac run_slider :=
  match goal with
  | |- context [ (safeGetValue ?i ?d ≫= _) ?w ] =>
      rewrite (bind_run _ _ _ _ _ (safeGetValue_run i d w)); norm_world
  end.

Ltac run_encode :=
  match goal with
  | |- context [ (hexToRgba (colorValue ?d ?p) ?o ≫= _) ?w ] =>
      rewrite (bind_run _ _ _ _ _
                 (hexToRgba_run (colorValue d p) o w (colorValue_shape d p)));
      norm_world
  end.

Ltac run_assign :=
  match goal with
  | |- context [ (assignMenuStyle ?k ?v ≫= _) ?w ] =>
      erewrite (bind_run _ _ _ _ _ (assignMenuStyle_run k v _ w eq_refl));
      norm_world
  end.

Ltac run_delete :=
  match goal with
  | |- context [ (deleteMenuStyle ?k ≫= _) ?w ] =>
      erewrite (bind_run _ _ _ _ _ (deleteMenuStyle_run k _ w eq_refl));
      norm_world
  end.

Lemma updateMenuStylesUI_run (C : Constants) (w : World) :
  let o := match menuStyles w with
           | Some o => o
           | None => DEFAULT_MENU_STYLES C
           end in
  exists w',
    updateMenuStylesUI C w = (Ok tt, w') /\
    document w' = document w /\ menuStyles w' = menuStyles w /\
    console w' = console w /\
    trace w' = (trace w ++ EvGetElement (ID_MENU C) ::
                  match document w !! ID_MENU C with
                  | Some _ => map (fun nv => EvSetProperty (fst nv) (snd nv))
                                (styleVariables o)
                  | None => []
                  end)%list /\
    rootStyle w' = match document w !! ID_MENU C with
                   | Some _ => foldl (fun r nv => <[fst nv := snd nv]> r)
                                 (rootStyle w) (styleVariables o)
                   | None => rootStyle w
                   end.
Proof.
  destruct w as [d ms rs cs tr]. cbn [menuStyles document trace rootStyle console].
  unfold updateMenuStylesUI.
  rewrite (bind_run getMenuStyles _ _ _ _ eq_refl).
  unfold getElementById, mbind, M_bind. norm_world.
  destruct (d !! ID_MENU C) as [m|].
  - unfold setProperty. norm_world. eexists. split; [reflexivity|].
    norm_world. repeat split. by rewrite <- !app_assoc.
  - eexists. split; [reflexivity|]. norm_world. repeat split.
Qed.

Lemma closeMenuStylePanel_run (C : Constants) (w : World) :
  exists w',
    closeMenuStylePanel C w = (Ok tt, w') /\
    menuStyles w' = menuStyles w /\ rootStyle w' = rootStyle w /\
    console w' = console w /\
    trace w' = (trace w ++ closePhase C w)%list /\
    document w' = match document w !! ID_MENU_STYLE_PANEL C with
                  | Some _ => alter hidePanel (ID_MENU_STYLE_PANEL C) (document w)
                  | None => document w
                  end.
Proof.
  destruct w as [d ms rs cs tr]. unfold closePhase.
  cbn [menuStyles document trace rootStyle console].
  unfold closeMenuStylePanel, getElementById, mbind, M_bind. norm_world.
  destruct (d !! ID_MENU_STYLE_PANEL C) as [m|].
  - unfold setDisplay. norm_world. eexists. split; [reflexivity|].
    norm_world. repeat split. by rewrite <- !app_assoc.
  - eexists. split; [reflexivity|]. norm_world. repeat split.
Qed.

(** [applyMenuStyles] always returns, and its effects on the five parts of
    the environment are the following. *)
Lemma applyMenuStyles_run (C : Constants) (w : World) :
  result (applyMenuStyles C) w = Ok tt /\
  document (after (applyMenuStyles C) w)
    = match document w !! ID_MENU_STYLE_PANEL C with
      | Some _ => alter hidePanel (ID_MENU_STYLE_PANEL C) (document w)
      | None => document w
      end /\
  menuStyles (after (applyMenuStyles C) w) = Some (appliedModel C w) /\
  rootStyle (after (applyMenuStyles C) w)
    = match document w !! ID_MENU C with
      | Some _ => foldl (fun r nv => <[fst nv := snd nv]> r) (rootStyle w)
                    (styleVariables (appliedModel C w))
      | None => rootStyle w
      end /\
  trace (after (applyMenuStyles C) w)
    = (trace w ++ modelPhase w ++ renderPhase C w ++ closePhase C w)%list.
Proof.
  destruct w as [d ms rs cs tr].
  unfold result, after, applyMenuStyles.
  erewrite (bind_run getMenuStyles _ _ _ _ eq_refl).
  set (w0 := {| document := d; menuStyles := ms; rootStyle := rs;
                console := cs; trace := tr |}).
  assert (Hinit : exists W,
    match ms with
    | Some _ => mret tt
    | None => replaceMenuStyles (json_clone (DEFAULT_MENU_STYLES C))
    end w0 = (Ok tt, W) /\
    W = {| document := d; menuStyles := Some (baseModel C w0); rootStyle := rs;
           console := cs; trace := (tr ++ initEvents w0)%list |}).
  { unfold baseModel, initEvents, w0.
    destruct ms; eexists; (split; [reflexivity|]); norm_world;
      [by rewrite app_nil_r | done]. }
  destruct Hinit as (W & E & ->). cbn [menuStyles].
  rewrite (bind_run _ _ _ _ _ E). clear E.
  run_color. run_slider. run_encode. run_assign.
  run_color. run_assign.
  run_color. run_assign.
  run_color. run_assign.
  run_color. run_assign.
  run_color. run_slider. run_encode. run_assign.
  run_color. run_assign.
  run_delete.
  match goal with
  | |- context [ (updateMenuStylesUI C ≫= _) ?W ] =>
      destruct (updateMenuStylesUI_run C W) as (W1 & E1 & Hd1 & Hm1 & Hc1 & Ht1 & Hr1)
  end.
  rewrite (bind_run _ _ _ _ _ E1). clear E1.
  destruct (closeMenuStylePanel_run C W1) as (W2 & E2 & Hm2 & Hr2 & Hc2 & Ht2 & Hd2).
  rewrite (bind_run _ _ _ _ _ E2). clear E2.
  unfold console_write. norm_fields.
  rewrite Hd2, Hm2, Hr2, Ht2, Hd1, Hm1, Hr1, Ht1.
  repeat split.
  unfold modelPhase, slotEvents, renderPhase, closePhase, appliedModel,
    plainColor, itemBgEncoded, menuBgEncoded, w0.
  rewrite Hd1. norm_fields. cbn [map]. rewrite <- !app_assoc. reflexivity.
Qed.

(** ** Operations that leave the model alone *)

Lemma keeps_model_bind {A B : Type} (m : M A) (f : A -> M B) :
  keeps_model m -> (forall a, keeps_model (f a)) -> keeps_model (m ≫= f).
Proof.
  intros Hm Hf w. unfold after, mbind, M_bind.
  specialize (Hm w). unfold after in Hm.
  destruct (m w) as [[a|e] w']; simpl in *; [|done].
  rewrite <- Hm. apply Hf.
Qed.

Lemma keeps_model_ret {A : Type} (a : A) : keeps_model (mret a).
Proof. by intros w. Qed.

Lemma keeps_model_throw {A : Type} (msg : string) : keeps_model (@throw A msg).
Proof. by intros w. Qed.

Lemma keeps_model_getElementById (id : string) : keeps_model (getElementById id).
Proof. by intros w. Qed.

Lemma keeps_model_setValue (id v : string) : keeps_model (setValue id v).
Proof. by intros w. Qed.

Lemma keeps_model_setTextContent (id v : string) : keeps_model (setTextContent id v).
Proof. by intros w. Qed.

Lemma keeps_model_setProperty (name : string) (v : jsval) :
  keeps_model (setProperty name v).
Proof. by intros w. Qed.

Lemma keeps_model_console_write (l : Level) (msg : string) :
  keeps_model (console_write l msg).
Proof. by intros w. Qed.

Lemma keeps_model_getMenuStyles : keeps_model getMenuStyles.
Proof. by intros w. Qed.

Create HintDb keeps discriminated.

#[local] Hint Resolve keeps_model_ret keeps_model_throw
  keeps_model_getElementById keeps_model_setValue keeps_model_setTextContent
  keeps_model_setProperty keeps_model_console_write keeps_model_getMenuStyles
  : keeps.

Ltac keeps :=
  repeat first
    [ apply keeps_model_bind; [| intros ?]
    | progress auto with keeps
    | match goal with
      | |- keeps_model (match ?x with _ => _ end) => destruct x
      end ].

Lemma keeps_model_safeSetValue (id : string) (v : jsval) :
  keeps_model (safeSetValue id v).
Proof. unfold safeSetValue. keeps. Qed.

Lemma keeps_model_safeSetText (id : string) (v : jsval) :
  keeps_model (safeSetText id v).
Proof. unfold safeSetText. keeps. Qed.

Lemma keeps_model_toUpperCase_of (v : jsval) : keeps_model (toUpperCase_of v).
Proof. unfold toUpperCase_of. keeps. Qed.

#[local] Hint Resolve keeps_model_safeSetValue keeps_model_safeSetText
  keeps_model_toUpperCase_of : keeps.

Lemma keeps_model_loadPlainSlot (v : jsval) (fallback picker text : string) :
  keeps_model (loadPlainSlot v fallback picker text).
Proof. unfold loadPlainSlot. keeps. Qed.

#[local] Hint Resolve keeps_model_loadPlainSlot : keeps.

Lemma keeps_model_loadMenuStylesIntoPanel (C : Constants) :
  keeps_model (loadMenuStylesIntoPanel C).
Proof. unfold loadMenuStylesIntoPanel. keeps. Qed.

Lemma keeps_model_updateMenuStylesUI (C : Constants) :
  keeps_model (updateMenuStylesUI C).
Proof. unfold updateMenuStylesUI. keeps. Qed.

(** [resetMenuStyles] leaves a copy of the defaults, also when the panel
    cannot be reloaded. *)
Lemma resetMenuStyles_model (C : Constants) (w : World) :
  menuStyles (after (resetMenuStyles C) w)
  = Some (json_clone (DEFAULT_MENU_STYLES C)).
Proof.
  unfold resetMenuStyles, after.
  rewrite (bind_run (replaceMenuStyles _) _ w _ tt eq_refl).
  match goal with
  | |- menuStyles (snd (?m ?w')) = _ =>
      change (menuStyles (after m w') = menuStyles w')
  end.
  generalize (emit EvModelReplace
                (set_menuStyles (Some (json_clone (DEFAULT_MENU_STYLES C))) w)).
  assert (K : keeps_model
                (loadMenuStylesIntoPanel C ≫= fun _ : unit =>
                 updateMenuStylesUI C ≫= fun _ : unit =>
                 console_write LogLevel
                   ("[" ++ EXTENSION_NAME C
                      ++ "] Menu styles reset to default. Remember to save settings."))).
  { pose proof (keeps_model_loadMenuStylesIntoPanel C).
    pose proof (keeps_model_updateMenuStylesUI C). keeps. }
  exact K.
Qed.

Lemma json_clone_absent (o : gmap string jsval) (k : string) :
  o !! k = None -> json_clone o !! k = None.
Proof. intros H. unfold json_clone. rewrite lookup_omap, H. reflexivity. Qed.

Lemma appliedModel_followTheme (C : Constants) (w : World) :
  appliedModel C w !! "followTheme" = None.
Proof. unfold appliedModel. apply lookup_delete_eq. Qed.

(** ** Legacy field *)

(** C7. After [applyMenuStyles], and after [resetMenuStyles], the style model
    [settings.menuStyles] has no [followTheme] key, whatever it held before.
    [applyMenuStyles] deletes the key ([appliedModel_followTheme] holds for
    any defaults); [resetMenuStyles] installs a copy of
    [DEFAULT_MENU_STYLES], a constant of [constants.js], which is taken
    without the legacy key. *)
Theorem C7_followTheme_absent (C : Constants) (w : World) :
  DEFAULT_MENU_STYLES C !! "followTheme" = None ->
  (exists o, menuStyles (after (applyMenuStyles C) w) = Some o
             /\ o !! "followTheme" = None)
  /\ (exists o, menuStyles (after (resetMenuStyles C) w) = Some o
                /\ o !! "followTheme" = None).
Proof.
  intros HD. split.
  - exists (appliedModel C w). split.
    + apply applyMenuStyles_run.
    + apply appliedModel_followTheme.
  - exists (json_clone (DEFAULT_MENU_STYLES C)). split.
    + apply resetMenuStyles_model.
    + by apply json_clone_absent.
Qed.

Lemma C7_followTheme_absent_witness :
  (exists v, menuStyles (samplePanel "#3C3C3C" "0.7") = Some v
             /\ v !! "followTheme" = Some (JBool true))
  /\ DEFAULT_MENU_STYLES sampleConstants !! "followTheme" = None
  /\ (exists o, menuStyles (after (applyMenuStyles sampleConstants)
                              (samplePanel "#3C3C3C" "0.7")) = Some o
                /\ o !! "followTheme" = None)
  /\ (exists o, menuStyles (after (resetMenuStyles sampleConstants)
                              (samplePanel "#3C3C3C" "0.7")) = Some o
                /\ o !! "followTheme" = None).
Proof.
  split; [eexists; split; reflexivity|].
  split; [reflexivity|].
  apply (C7_followTheme_absent sampleConstants (samplePanel "#3C3C3C" "0.7")).
  reflexivity.
Defined.

(** ** End to end: a colour typed without [#], then applied *)

(** C1. The text field of the item background receives the keystrokes
    [ff00ff] and its [input] listener runs; the slider of the item opacity
    holds [0.9]; then [applyMenuStyles] sets the slot [itemBgColor] of the
    model and the style variable [--qr-item-bg-color] to
    ["rgba(255, 0, 255, 0.9)"].  The panel is the one [setupColorPickerSync]
    and [loadMenuStylesIntoPanel] address: picker [qr-item-bgcolor-picker],
    text field [qr-item-bgcolor-text], slider [qr-item-opacity]; the menu
    element exists (the style variables are set only then), and
    [getColorValue], which looks for a text field under
    [qr-item-bgcolor-picker-text], finds no six-digit colour there. *)
Theorem C1_apply_end_to_end (C : Constants) (w : World) (p t s m : Control) :
  document w !! "qr-item-bgcolor-picker" = Some p ->
  document w !! "qr-item-bgcolor-text" = Some t ->
  value t = "ff00ff" ->
  document w !! "qr-item-opacity" = Some s ->
  value s = "0.9" ->
  textFieldWins (document w) "qr-item-bgcolor-picker" = false ->
  document w !! ID_MENU C = Some m ->
  let w1 := after (textInput_onInput "qr-item-bgcolor-picker"
                     "qr-item-bgcolor-text") w in
  let w2 := after (applyMenuStyles C) w1 in
  result (applyMenuStyles C) w1 = Ok tt
  /\ (exists o, menuStyles w2 = Some o
                /\ o !! "itemBgColor" = Some (JStr "rgba(255, 0, 255, 0.9)"))
  /\ rootStyle w2 !! "--qr-item-bg-color" = Some "rgba(255, 0, 255, 0.9)".
Proof.
  intros Hp Ht Hvt Hs Hvs Hwin Hm w1 w2.
  assert (Hd1 : document w1
                = alter (fun c => {| value := "#FF00FF";
                                     textContent := textContent c;
                                     display := display c |})
                    "qr-item-bgcolor-text"
                    (alter (fun c => {| value := "#ff00ff";
                                        textContent := textContent c;
                                        display := display c |})
                       "qr-item-bgcolor-picker" (document w))).
  { unfold w1, after, textInput_onInput, valueOf, mbind, M_bind.
    rewrite Ht, Hvt. reflexivity. }
  destruct (applyMenuStyles_run C w1) as (Hr & _ & Hms & Hrs & _).
  fold w2 in Hms, Hrs.
  assert (Hitem : itemBgEncoded w1 = "rgba(255, 0, 255, 0.9)").
  { unfold itemBgEncoded, colorValue, textFieldWins, valueOr.
    rewrite Hd1.
    repeat first [ rewrite lookup_alter_eq | rewrite lookup_alter_ne by done ].
    unfold textFieldWins in Hwin. rewrite Hwin, Hp, Hs.
    cbn [fmap option_fmap option_map value].
    rewrite Hvs. vm_compute. reflexivity. }
  split; [exact Hr|]. split.
  - exists (appliedModel C w1). split; [exact Hms|].
    unfold appliedModel. rewrite Hitem.
    rewrite lookup_delete_ne by done.
    rewrite !lookup_insert_ne by done.
    apply lookup_insert_eq.
  - rewrite Hrs.
    assert (Hmenu : is_Some (document w1 !! ID_MENU C)).
    { rewrite Hd1. rewrite !lookup_alter_is_Some. by exists m. }
    destruct Hmenu as [m' ->].
    cbn [foldl styleVariables fst snd].
    rewrite !lookup_insert_ne by done. rewrite lookup_insert_eq.
    unfold get_prop, appliedModel. rewrite Hitem.
    rewrite lookup_delete_ne by done.
    rewrite !lookup_insert_ne by done. rewrite lookup_insert_eq. reflexivity.
Qed.

Lemma C1_apply_end_to_end_witness :
  let w1 := after (textInput_onInput "qr-item-bgcolor-picker"
                     "qr-item-bgcolor-text") (samplePanel "ff00ff" "0.9") in
  let w2 := after (applyMenuStyles sampleConstants) w1 in
  result (applyMenuStyles sampleConstants) w1 = Ok tt
  /\ (exists o, menuStyles w2 = Some o
                /\ o !! "itemBgColor" = Some (JStr "rgba(255, 0, 255, 0.9)"))
  /\ rootStyle w2 !! "--qr-item-bg-color" = Some "rgba(255, 0, 255, 0.9)".
Proof.
  apply (C1_apply_end_to_end sampleConstants (samplePanel "ff00ff" "0.9")
           (control "#3c3c3c") (control "ff00ff") (control "0.9")
           (control EmptyString)); reflexivity.
Defined.

(** ** Order of the effects of [applyMenuStyles] *)

Lemma all_before_none (P Q : Event -> bool) (t : list Event) :
  forallb (fun e => negb (P e)) t = true -> all_before P Q t = true.
Proof.
  induction t as [|e t IH]; simpl; [done|].
  intros [_ Ht]%andb_true_iff. rewrite Ht, IH by done. by destruct (Q e).
Qed.

(** A trace in two parts, no [Q] event in the first and no [P] event in the
    second: all [P] events come before all [Q] events. *)
Lemma all_before_split (P Q : Event -> bool) (a b : list Event) :
  forallb (fun e => negb (Q e)) a = true ->
  forallb (fun e => negb (P e)) b = true ->
  all_before P Q (a ++ b) = true.
Proof.
  intros Ha Hb. induction a as [|e a IH]; simpl.
  - by apply all_before_none.
  - simpl in Ha. apply andb_true_iff in Ha as [He Ha].
    apply negb_true_iff in He. rewrite He. simpl. by apply IH.
Qed.

Lemma colorLookups_forallb (Q : Event -> bool) (d : gmap string Control)
    (pickerId : string) :
  (forall id, Q (EvGetElement id) = true) ->
  forallb Q (colorLookups d pickerId) = true.
Proof.
  intros H. unfold colorLookups.
  destruct (textFieldWins d pickerId); simpl; by rewrite !H.
Qed.

Lemma modelPhase_forallb (Q : Event -> bool) (w : World) :
  (forall id, Q (EvGetElement id) = true) ->
  Q EvModelReplace = true ->
  (forall k, Q (EvModelAssign k) = true) ->
  (forall k, Q (EvModelDelete k) = true) ->
  forallb Q (modelPhase w) = true.
Proof.
  intros Hg Hr Ha Hd. unfold modelPhase, slotEvents, initEvents.
  rewrite !forallb_app, !colorLookups_forallb by done.
  destruct (menuStyles w); simpl; by rewrite ?Hg, ?Hr, ?Ha, ?Hd.
Qed.

Lemma renderPhase_forallb (Q : Event -> bool) (C : Constants) (w : World) :
  Q (EvGetElement (ID_MENU C)) = true ->
  (forall n v, Q (EvSetProperty n v) = true) ->
  forallb Q (renderPhase C w) = true.
Proof.
  intros Hg Hp. unfold renderPhase.
  destruct (document w !! ID_MENU C); simpl; by rewrite ?Hg, ?Hp.
Qed.

Lemma closePhase_forallb (Q : Event -> bool) (C : Constants) (w : World) :
  Q (EvGetElement (ID_MENU_STYLE_PANEL C)) = true ->
  Q (EvSetDisplay (ID_MENU_STYLE_PANEL C) "none") = true ->
  forallb Q (closePhase C w) = true.
Proof.
  intros Hg Hp. unfold closePhase.
  destruct (document w !! ID_MENU_STYLE_PANEL C); simpl; by rewrite ?Hg, ?Hp.
Qed.

Lemma all_before_skip (P Q : Event -> bool) (a b : list Event) :
  forallb (fun e => negb (Q e)) a = true ->
  all_before P Q b = true ->
  all_before P Q (a ++ b) = true.
Proof.
  intros Ha Hb. induction a as [|e a IH]; simpl; [done|].
  simpl in Ha. apply andb_true_iff in Ha as [He Ha].
  apply negb_true_iff in He. rewrite He. simpl. by apply IH.
Qed.

Lemma all_before_skip1 (P Q : Event -> bool) (e : Event) (b : list Event) :
  Q e = false -> all_before P Q b = true -> all_before P Q (e :: b) = true.
Proof. intros He Hb. simpl. by rewrite He, Hb. Qed.

Lemma all_before_hit (P Q : Event -> bool) (e : Event) (b : list Event) :
  forallb (fun e' => negb (P e')) b = true -> all_before P Q (e :: b) = true.
Proof.
  intros Hb. simpl. rewrite Hb, (all_before_none P Q b Hb). by destruct (Q e).
Qed.

Lemma colorLookups_forallb2 (Q : Event -> bool) (d : gmap string Control)
    (pickerId : string) :
  Q (EvGetElement (pickerId ++ "-text")) = true ->
  Q (EvGetElement pickerId) = true ->
  forallb Q (colorLookups d pickerId) = true.
Proof.
  intros H1 H2. unfold colorLookups.
  destruct (textFieldWins d pickerId); simpl; by rewrite ?H1, ?H2.
Qed.

Lemma forallb_cons_true {A : Type} (f : A -> bool) (x : A) (l : list A) :
  f x = true -> forallb f l = true -> forallb f (x :: l) = true.
Proof. intros Hx Hl. simpl. by rewrite Hx, Hl. Qed.

Lemma forallb_app_true {A : Type} (f : A -> bool) (a b : list A) :
  forallb f a = true -> forallb f b = true -> forallb f (a ++ b) = true.
Proof. intros Ha Hb. by rewrite forallb_app, Ha, Hb. Qed.

Lemma slot_read_form (slot : string * list string * string) (id : string) :
  In slot slots ->
  is_form_read (EvGetElement id) = false ->
  slot_read slot (EvGetElement id) = false.
Proof.
  intros Hin Hf.
  unfold is_form_read, is_lookup_of, formControlIds, pickerIds in Hf.
  cbn [map app existsb] in Hf.
  repeat (apply orb_false_iff in Hf as [? Hf]).
  unfold slots in Hin. cbn [In] in Hin.
  repeat (destruct Hin as [<-|Hin]); try done;
    unfold slot_read, is_lookup_of; cbn [existsb app];
    repeat (apply orb_false_iff; split); done.
Qed.

Lemma slots_ordered (C : Constants) (w : World) :
  is_form_read (EvGetElement (ID_MENU C)) = false ->
  is_form_read (EvGetElement (ID_MENU_STYLE_PANEL C)) = false ->
  Forall (fun slot =>
            all_before (slot_read slot) (slot_write slot)
              (modelPhase w ++ renderPhase C w ++ closePhase C w) = true) slots.
Proof.
  intros Hm Hp.
  apply Forall_forall. intros slot Hin. apply list_elem_of_In in Hin.
  pose proof (slot_read_form slot _ Hin Hm) as Hm'.
  pose proof (slot_read_form slot _ Hin Hp) as Hp'.
  assert (Hr : forallb (fun e => negb (slot_read slot e)) (renderPhase C w) = true).
  { apply renderPhase_forallb; [by rewrite Hm'|]. intros. by destruct slot as [[? ?] ?]. }
  assert (Hc : forallb (fun e => negb (slot_read slot e)) (closePhase C w) = true).
  { apply closePhase_forallb; [by rewrite Hp'|]. by destruct slot as [[? ?] ?]. }
  unfold modelPhase, slotEvents. rewrite <- !app_assoc. cbn [map app].
  apply all_before_skip.
  { unfold initEvents. destruct (menuStyles w); [done|]. by destruct slot as [[? ?] ?]. }
  unfold slots in Hin. cbn [In] in Hin.
  repeat (destruct Hin as [<-|Hin]); try done.
  all: repeat first
    [ apply all_before_skip; [ apply colorLookups_forallb2; reflexivity |]
    | apply all_before_skip1; [ reflexivity |] ].
  all: apply all_before_hit.
  all: repeat first
    [ apply forallb_cons_true; [ reflexivity |]
    | apply forallb_app_true; [ apply colorLookups_forallb2; reflexivity |] ].
  all: by apply forallb_app_true.
Qed.

(** C9, as the code has it.  The events of one [applyMenuStyles] are those of
    [modelPhase] (the model is initialised if absent; then, slot after slot,
    the controls of the slot are looked up and the slot is assigned;
    [followTheme] is deleted), then those of [renderPhase], then those of
    [closePhase].  Every model mutation and every lookup of a form control
    precedes every [setProperty], which all precede the closing of the
    panel, and on return the panel is hidden.  Within [modelPhase] lookups
    and assignments alternate: the controls of each slot are read before
    that slot is assigned, not before every assignment.  The menu and the
    panel are taken not to be form controls. *)
Theorem C9_apply_order (C : Constants) (w : World) (p : Control) :
  document w !! ID_MENU_STYLE_PANEL C = Some p ->
  is_form_read (EvGetElement (ID_MENU C)) = false ->
  is_form_read (EvGetElement (ID_MENU_STYLE_PANEL C)) = false ->
  let w' := after (applyMenuStyles C) w in
  let t := (modelPhase w ++ renderPhase C w ++ closePhase C w)%list in
  result (applyMenuStyles C) w = Ok tt
  /\ trace w' = (trace w ++ t)%list
  /\ all_before is_model_write is_render t = true
  /\ all_before is_form_read is_render t = true
  /\ all_before is_render is_close t = true
  /\ all_before is_model_write is_close t = true
  /\ all_before is_form_read is_close t = true
  /\ Forall (fun slot => all_before (slot_read slot) (slot_write slot) t = true)
       slots
  /\ (exists p', document w' !! ID_MENU_STYLE_PANEL C = Some p'
                 /\ display p' = "none").
Proof.
  intros Hp Hmenu Hpanel w' t.
  destruct (applyMenuStyles_run C w) as (Hr & Hd & _ & _ & Ht).
  fold w' in Hd, Ht.
  split; [exact Hr|]. split; [exact Ht|].
  assert (Hm_r : forallb (fun e => negb (is_render e)) (modelPhase w) = true)
    by (by apply modelPhase_forallb).
  assert (Hm_c : forallb (fun e => negb (is_close e)) (modelPhase w) = true)
    by (by apply modelPhase_forallb).
  assert (Hr_c : forallb (fun e => negb (is_close e)) (renderPhase C w) = true)
    by (by apply renderPhase_forallb).
  assert (Hr_m : forallb (fun e => negb (is_model_write e)) (renderPhase C w) = true)
    by (by apply renderPhase_forallb).
  assert (Hr_f : forallb (fun e => negb (is_form_read e)) (renderPhase C w) = true)
    by (apply renderPhase_forallb; [by rewrite Hmenu | done]).
  assert (Hc_m : forallb (fun e => negb (is_model_write e)) (closePhase C w) = true)
    by (by apply closePhase_forallb).
  assert (Hc_f : forallb (fun e => negb (is_form_read e)) (closePhase C w) = true)
    by (apply closePhase_forallb; [by rewrite Hpanel | done]).
  assert (Hc_r : forallb (fun e => negb (is_render e)) (closePhase C w) = true)
    by (by apply closePhase_forallb).
  repeat split.
  - apply all_before_split; [done|]. by rewrite forallb_app, Hr_m, Hc_m.
  - apply all_before_split; [done|]. by rewrite forallb_app, Hr_f, Hc_f.
  - unfold t. rewrite app_assoc. apply all_before_split; [|exact Hc_r].
    by rewrite forallb_app, Hm_c, Hr_c.
  - unfold t. rewrite app_assoc. apply all_before_split; [|exact Hc_m].
    by rewrite forallb_app, Hm_c, Hr_c.
  - unfold t. rewrite app_assoc. apply all_before_split; [|exact Hc_f].
    by rewrite forallb_app, Hm_c, Hr_c.
  - by apply slots_ordered.
  - rewrite Hd, Hp, lookup_alter_eq, Hp. by eexists.
Qed.

Lemma C9_apply_order_witness :
  let C := sampleConstants in
  let w := samplePanel "#3C3C3C" "0.7" in
  let w' := after (applyMenuStyles C) w in
  let t := (modelPhase w ++ renderPhase C w ++ closePhase C w)%list in
  result (applyMenuStyles C) w = Ok tt
  /\ trace w' = (trace w ++ t)%list
  /\ all_before is_model_write is_render t = true
  /\ all_before is_form_read is_render t = true
  /\ all_before is_render is_close t = true
  /\ all_before is_model_write is_close t = true
  /\ all_before is_form_read is_close t = true
  /\ Forall (fun slot => all_before (slot_read slot) (slot_write slot) t = true)
       slots
  /\ (exists p', document w' !! ID_MENU_STYLE_PANEL C = Some p'
                 /\ display p' = "none").
Proof.
  apply (C9_apply_order sampleConstants (samplePanel "#3C3C3C" "0.7")
           (control EmptyString)); reflexivity.
Defined.

(** C9 as the specification words it, "the form controls are read before the
    model is mutated", fails: the fourth event of a run on the sample panel
    assigns [itemBgColor], the fifth looks up the text field of the next
    slot. *)
Lemma C9_reads_before_writes_counterexample :
  let t := trace (after (applyMenuStyles sampleConstants)
                    (samplePanel "#3C3C3C" "0.7")) in
  t !! 3%nat = Some (EvModelAssign "itemBgColor")
  /\ t !! 4%nat = Some (EvGetElement "qr-item-color-picker-text")
  /\ is_model_write (EvModelAssign "itemBgColor") = true
  /\ is_form_read (EvGetElement "qr-item-color-picker-text") = true
  /\ all_before is_form_read is_model_write t = false.
Proof. vm_compute. repeat split; reflexivity. Qed.

(** ** Strings of six hexadecimal digits *)

Lemma test_hex6_inv (s : string) :
  test_hex6 s = true ->
  exists a b c d e f,
    s = String "#" (String a (String b (String c (String d (String e
          (String f EmptyString))))))
    /\ Forall (fun x => is_hex_digit x = true) [a; b; c; d; e; f].
Proof.
  unfold test_hex6. destruct s as [|h s]; [done|].
  destruct (Ascii.eqb_spec h "#") as [->|Hh];
    [|destruct h as [[] [] [] [] [] [] [] []]; done].
  unfold six_hex_digits.
  destruct s as [|a [|b [|c [|d [|e [|f [|]]]]]]]; try done.
  simpl. rewrite !andb_true_iff.
  intros (Ha & Hb & Hc & Hd & He & Hf & _).
  exists a, b, c, d, e, f. split; [done|]. by repeat constructor.
Qed.

Lemma hex_digit_not_ws (c : ascii) :
  is_hex_digit c = true -> is_ws c = false.
Proof.
  revert c. apply all_hex_digits. unfold hex_digit_list. simpl.
  repeat constructor.
Qed.

Lemma hex_digit_not_r (c : ascii) :
  is_hex_digit c = true -> negb (Ascii.eqb c "r") = true.
Proof.
  revert c. apply all_hex_digits. unfold hex_digit_list. simpl.
  repeat constructor.
Qed.

Lemma match_rgba_here_needs_r (c : ascii) (s : string) :
  negb (Ascii.eqb c "r") = true -> match_rgba_here (String c s) = None.
Proof.
  intros H. unfold match_rgba_here, expect_prefix. cbn [is_prefix].
  rewrite Ascii.eqb_sym. apply negb_true_iff in H. by rewrite H.
Qed.

(** Without an [r] there is no match of the rgba pattern. *)
Lemma match_rgba_no_r (s : string) :
  all_chars (fun c => negb (Ascii.eqb c "r")) s = true -> match_rgba s = None.
Proof.
  induction s as [|c s IH]; simpl all_chars.
  - reflexivity.
  - intros [Hc Hs]%andb_true_iff. simpl.
    rewrite (match_rgba_here_needs_r c s Hc). by apply IH.
Qed.

Lemma match_rgba_hex6 (s : string) : test_hex6 s = true -> match_rgba s = None.
Proof.
  intros (a & b & c & d & e & f & -> & H)%test_hex6_inv.
  apply match_rgba_no_r.
  repeat match goal with
         | H : Forall _ (_ :: _) |- _ => apply Forall_cons_1 in H as [?%hex_digit_not_r H]
         end.
  simpl. by repeat (apply andb_true_iff; split).
Qed.

(** C3, as the code has it.  On a colour that is already [#] and six
    hexadecimal digits the decoder returns the upper-case form of its
    input: the input itself exactly when it has no lower-case digit. *)
Theorem C3_bare_hex_uppercased (s : string) :
  test_hex6 s = true ->
  rgbaToHex (JStr s) = toUpperCase s
  /\ (toUpperCase s = s -> rgbaToHex (JStr s) = s).
Proof.
  intros Hs.
  assert (E : rgbaToHex (JStr s) = toUpperCase s).
  { unfold rgbaToHex. rewrite (test_hex6_nonempty s Hs). simpl.
    by rewrite (match_rgba_hex6 s Hs), Hs. }
  split; [exact E|]. intros Hu. by rewrite E.
Qed.

Lemma C3_bare_hex_uppercased_witness :
  rgbaToHex (JStr "#FF00FF") = toUpperCase "#FF00FF"
  /\ (toUpperCase "#FF00FF" = "#FF00FF" -> rgbaToHex (JStr "#FF00FF") = "#FF00FF").
Proof. apply (C3_bare_hex_uppercased "#FF00FF"). reflexivity. Defined.

(** C3 as the specification words it, "returns it unchanged", fails on a
    colour with lower-case digits. *)
Lemma C3_unchanged_counterexample :
  test_hex6 "#ff00ff" = true
  /\ rgbaToHex (JStr "#ff00ff") = "#FF00FF"
  /\ rgbaToHex (JStr "#ff00ff") <> "#ff00ff".
Proof. repeat split. discriminate. Qed.

(** ** FieldSync *)

Lemma colour_unit_facts (c : ascii) :
  is_hex_digit c || Ascii.eqb c "#" = true ->
  (N_of_ascii c =? 223)%N = false
  /\ (N_of_ascii (upper_char c) =? 10)%N || (N_of_ascii (upper_char c) =? 13)%N
     = false
  /\ upper_char (lower_char c) = upper_char c
  /\ (N_of_ascii (lower_char c) =? 223)%N = false.
Proof.
  intros H.
  destruct c as [[] [] [] [] [] [] [] []]; try discriminate H; repeat split.
Qed.

Lemma colour_units_upper (s : string) :
  all_chars (fun c => is_hex_digit c || Ascii.eqb c "#") s = true ->
  strip_newlines (toUpperCase s) = toUpperCase s
  /\ toUpperCase (ascii_lowercase s) = toUpperCase s.
Proof.
  induction s as [|c s IH]; [done|].
  cbn [all_chars]. intros [Hc Hs]%andb_true_iff.
  destruct (IH Hs) as [IH1 IH2].
  destruct (colour_unit_facts c Hc) as (E1 & E2 & E3 & E4).
  cbn [toUpperCase ascii_lowercase]. rewrite E1, E4.
  cbn [strip_newlines]. by rewrite E2, E3, IH1, IH2.
Qed.

(** On a colour of six hexadecimal digits [toUpperCase] works digit by
    digit; its result has no line break, and the lower-case form of the
    colour has the same upper-case form. *)
Lemma hex6_upper_plain (s : string) :
  test_hex6 s = true ->
  strip_newlines (toUpperCase s) = toUpperCase s
  /\ toUpperCase (ascii_lowercase s) = toUpperCase s.
Proof.
  intros (a & b & c & d & e & f & -> & H)%test_hex6_inv.
  apply colour_units_upper.
  repeat (apply Forall_cons_1 in H as [? H]).
  cbn [all_chars]. change (is_hex_digit "#" || Ascii.eqb "#" "#") with true.
  repeat match goal with
         | E : is_hex_digit _ = true |- _ => rewrite E; clear E
         end.
  reflexivity.
Qed.

Lemma with_hash_valid (v : string) :
  test_opt_hash_hex6 v = true -> test_hex6 (with_hash v) = true.
Proof.
  unfold test_opt_hash_hex6, with_hash, startsWith.
  destruct v as [|c r]; [done|].
  destruct (Ascii.eqb_spec c "#") as [->|Hc]; [done|].
  assert (E : is_prefix "#" (String c r) = false).
  { cbn [is_prefix]. destruct (Ascii.eqb_spec "#" c) as [<-|]; done. }
  rewrite E. cbn [test_hex6 append].
  destruct c as [[] [] [] [] [] [] [] []]; done.
Qed.

(** A colour input holds six hexadecimal digits after a [#]. *)
Lemma holds_color (v : string) :
  holds ColorInput v = true -> test_hex6 v = true.
Proof.
  unfold holds, sanitize, sanitize_color.
  destruct (test_hex6 v) eqn:E; [done|].
  intros <-%String.eqb_eq. by vm_compute in E.
Qed.

Lemma kinds_differ (picker text : string) :
  kindOf picker = ColorInput -> kindOf text = TextInput -> picker <> text.
Proof. intros Hp Ht ->. congruence. Qed.

(** C6, as the code has it.  The picker is a colour input, the text field a
    text input.  On [input], a trimmed value of six hexadecimal digits, with
    or without [#], is assigned with its [#] to the picker, which stores it
    in lower case as a colour input does, and in upper case to the text
    field: the text field then shows the upper-case form of the picker's
    value.  Any other value leaves the document as it is.  On [change], a
    value that is still invalid is replaced in the text field by the
    upper-case form of the picker's value, and the picker is left alone. *)
Theorem C6_field_sync (w : World) (picker text : string) (p t : Control) :
  kindOf picker = ColorInput ->
  kindOf text = TextInput ->
  document w !! picker = Some p ->
  document w !! text = Some t ->
  holds ColorInput (value p) = true ->
  let v := trim (value t) in
  let onInput := after (textInput_onInput picker text) w in
  let onChange := after (textInput_onChange picker text) w in
  (test_opt_hash_hex6 v = true ->
     value <$> document onInput !! picker
     = Some (ascii_lowercase (with_hash v))
     /\ value <$> document onInput !! text = Some (toUpperCase (with_hash v))
     /\ toUpperCase (ascii_lowercase (with_hash v)) = toUpperCase (with_hash v))
  /\ (test_opt_hash_hex6 v = false ->
        document onInput = document w
        /\ document onChange !! picker = Some p
        /\ value <$> document onChange !! text = Some (toUpperCase (value p))).
Proof.
  intros Kp Kt Hp Ht Hv v onInput onChange.
  pose proof (kinds_differ picker text Kp Kt) as Hne.
  unfold onInput, onChange, after, textInput_onInput, textInput_onChange,
    valueOf, mbind, M_bind.
  rewrite Ht. fold v. split; intros Hvalid; rewrite Hvalid.
  - cbn [fst snd]. unfold setValue. norm_fields. rewrite Kp, Kt.
    fold (with_hash v).
    pose proof (with_hash_valid v Hvalid) as Hh.
    destruct (hex6_upper_plain _ Hh) as [Hs Hl].
    rewrite lookup_alter_ne, lookup_alter_eq, Hp by done.
    rewrite lookup_alter_eq, lookup_alter_ne, Ht by done.
    cbn [fmap option_fmap option_map value sanitize].
    unfold sanitize_color. rewrite Hh, Hs. done.
  - rewrite Hp. cbn [fst snd]. unfold setValue. norm_fields. rewrite Kt.
    rewrite lookup_alter_ne, Hp by done.
    rewrite lookup_alter_eq, Ht.
    cbn [fmap option_fmap option_map value sanitize].
    destruct (hex6_upper_plain _ (holds_color _ Hv)) as [-> _]. done.
Qed.

Lemma C6_field_sync_witness :
  let w := samplePanel "FF00ff" "0.9" in
  let picker := "qr-item-bgcolor-picker" in
  let text := "qr-item-bgcolor-text" in
  let v := trim "FF00ff" in
  let onInput := after (textInput_onInput picker text) w in
  let onChange := after (textInput_onChange picker text) w in
  (test_opt_hash_hex6 v = true ->
     value <$> document onInput !! picker
     = Some (ascii_lowercase (with_hash v))
     /\ value <$> document onInput !! text = Some (toUpperCase (with_hash v))
     /\ toUpperCase (ascii_lowercase (with_hash v)) = toUpperCase (with_hash v))
  /\ (test_opt_hash_hex6 v = false ->
        document onInput = document w
        /\ document onChange !! picker = Some (control "#3c3c3c")
        /\ value <$> document onChange !! text
           = Some (toUpperCase (value (control "#3c3c3c")))).
Proof.
  apply (C6_field_sync (samplePanel "FF00ff" "0.9") "qr-item-bgcolor-picker"
           "qr-item-bgcolor-text" (control "#3c3c3c") (control "FF00ff"));
    reflexivity.
Defined.

(** C6 as the specification words it fails twice.  Typing [FF00FF] does not
    put the upper-case [#FF00FF] into the picker: it is assigned, and the
    colour input stores [#ff00ff].  And a commit of the invalid text [red]
    over the picker value [#3c3c3c] leaves [#3C3C3C] in the text field, which
    is not the picker's value. *)
Lemma C6_picker_case_counterexample :
  let picker := "qr-item-bgcolor-picker" in
  let text := "qr-item-bgcolor-text" in
  (value <$> document (after (textInput_onInput picker text)
                         (samplePanel "FF00FF" "0.9")) !! picker
   = Some "#ff00ff"
   /\ toUpperCase (with_hash (trim "FF00FF")) = "#FF00FF"
   /\ "#ff00ff" <> "#FF00FF")
  /\ (let w' := after (textInput_onChange picker text)
                  (samplePanel "red" "0.9") in
      value <$> document w' !! picker = Some "#3c3c3c"
      /\ value <$> document w' !! text = Some "#3C3C3C"
      /\ "#3C3C3C" <> "#3c3c3c").
Proof. vm_compute. repeat split; (reflexivity || discriminate). Qed.

(** ** The fallback colour of the encoder *)

Lemma trimEnd_hex6 (a b c d e f : ascii) :
  is_hex_digit f = true ->
  trimEnd (String "#" (String a (String b (String c (String d (String e
             (String f EmptyString)))))))
  = String "#" (String a (String b (String c (String d (String e
             (String f EmptyString)))))).
Proof. intros Hf. simpl. by rewrite (hex_digit_not_ws f Hf). Qed.

Lemma test_hex6_normalised (s : string) :
  test_hex6 s = true -> test_hex6 (with_hash (trim s)) = true.
Proof.
  intros Hs.
  destruct (test_hex6_inv s Hs) as (a & b & c & d & e & f & -> & H).
  unfold trim. cbn [trimStart is_ws]. change (is_ws "#") with false. cbv iota.
  rewrite trimEnd_hex6.
  - exact Hs.
  - by repeat (apply Forall_cons_1 in H as [? H]).
Qed.

Lemma rgbaString_fallback (v : jsval) :
  rgbaString "#3c3c3c" v = rgba_text 60 60 60 (to_js_string v).
Proof. reflexivity. Qed.

(** C5.  On every string that is not [#] and six hexadecimal digits, even
    after trimming it and adding a [#], [hexToRgba] returns normally, with
    the encoding of the channels 60, 60, 60 of [#3c3c3c], and writes one
    warning to the console. *)
Theorem C5_encode_fallback (s : string) (opacity : jsval) (w : World) :
  test_hex6 (with_hash (trim s)) = false ->
  hexToRgba (JStr s) opacity w
  = (Ok (rgba_text 60 60 60 (to_js_string (validOpacity opacity))),
     add_console
       [(WarnLevel, "Invalid hex color provided: #3c3c3c. Using default.")] w).
Proof.
  intros Hn.
  assert (Hs : test_hex6 s = false).
  { destruct (test_hex6 s) eqn:E; [|done].
    by rewrite (test_hex6_normalised s E) in Hn. }
  rewrite hexToRgba_run by eauto.
  unfold encoded, hex_or_fallback, hex_warning, hex_is_valid.
  simpl to_js_string. rewrite Hs, andb_false_r.
  by rewrite rgbaString_fallback.
Qed.

Lemma C5_encode_fallback_witness :
  test_hex6 (with_hash (trim "red")) = false
  /\ hexToRgba (JStr "red") (JStr "0.5") (samplePanel "red" "0.5")
     = (Ok "rgba(60, 60, 60, 0.5)",
        add_console
          [(WarnLevel, "Invalid hex color provided: #3c3c3c. Using default.")]
          (samplePanel "red" "0.5")).
Proof.
  split; [reflexivity|].
  apply (C5_encode_fallback "red" (JStr "0.5") (samplePanel "red" "0.5")).
  reflexivity.
Defined.

(** ** The channels of the encoder *)

Lemma parseInt_hex_pair (a b : ascii) :
  is_hex_digit a = true -> is_hex_digit b = true ->
  parseInt (String a (String b EmptyString)) (Some 16%N)
  = Some (Z.of_N (hex_pair a b)).
Proof.
  intros Ha Hb. revert b Hb. revert a Ha.
  apply (all_hex_digits
           (fun a => forall b, is_hex_digit b = true ->
              parseInt (String a (String b EmptyString)) (Some 16%N)
              = Some (Z.of_N (hex_pair a b)))).
  unfold hex_digit_list. simpl.
  repeat constructor;
    (apply all_hex_digits; unfold hex_digit_list; simpl;
     repeat constructor; reflexivity).
Qed.

Lemma hex_pair_bound (a b : ascii) : (hex_pair a b <= 255)%N.
Proof.
  assert (H : forall c, (match hex_value c with Some d => d | None => 0 end <= 15)%N).
  { intros c. unfold hex_value.
    repeat match goal with
           | |- context [if ?x then _ else _] => destruct x eqn:?
           end; try lia;
    repeat match goal with
           | H : (_ && _) = true |- _ => apply andb_true_iff in H as [? ?]
           | H : (_ <=? _)%N = true |- _ => apply N.leb_le in H
           end; lia. }
  unfold hex_pair. pose proof (H a). pose proof (H b). lia.
Qed.

Lemma int_to_string_of_N (n : N) :
  int_to_string (Some (Z.of_N n)) = dec_string n.
Proof.
  unfold int_to_string.
  destruct (Z.ltb_spec (Z.of_N n) 0) as [H|H]; [lia|].
  by rewrite N2Z.id.
Qed.

(** The template of [hexToRgba] on a colour of six hexadecimal digits. *)
Lemma rgbaString_hex6 (a b c d e f : ascii) (v : jsval) :
  Forall (fun x => is_hex_digit x = true) [a; b; c; d; e; f] ->
  rgbaString (String "#" (String a (String b (String c (String d (String e
                (String f EmptyString))))))) v
  = rgba_text (hex_pair a b) (hex_pair c d) (hex_pair e f) (to_js_string v).
Proof.
  intros H.
  repeat (apply Forall_cons_1 in H as [? H]).
  unfold rgbaString, rgba_text.
  change (replace "#" "" (String "#" (String a (String b (String c (String d
            (String e (String f EmptyString))))))))
    with (String a (String b (String c (String d (String e
            (String f EmptyString)))))).
  change (substring 0 2 (String a (String b (String c (String d (String e
            (String f EmptyString)))))))
    with (String a (String b EmptyString)).
  change (substring 2 4 (String a (String b (String c (String d (String e
            (String f EmptyString)))))))
    with (String c (String d EmptyString)).
  change (substring 4 6 (String a (String b (String c (String d (String e
            (String f EmptyString)))))))
    with (String e (String f EmptyString)).
  rewrite !parseInt_hex_pair by done.
  by rewrite !int_to_string_of_N.
Qed.

(** ** Decoding a well-formed [rgba(r,g,b,a)] *)

Lemma span_app (p : ascii -> bool) (a rest : string) :
  all_chars p a = true ->
  match rest with String c _ => p c = false | EmptyString => True end ->
  span p (a ++ rest) = (a, rest).
Proof.
  intros Ha Hr. induction a as [|c a IH]; simpl in *.
  - destruct rest as [|c r]; simpl; [done|]. by rewrite Hr.
  - apply andb_true_iff in Ha as [Hc Ha]. by rewrite Hc, IH.
Qed.

Lemma some_of_app (p : ascii -> bool) (a rest : string) :
  a <> EmptyString ->
  all_chars p a = true ->
  match rest with String c _ => p c = false | EmptyString => True end ->
  some_of p (a ++ rest) = Some (a, rest).
Proof.
  intros Hne Ha Hr. unfold some_of. rewrite span_app by done.
  by destruct a.
Qed.

Lemma skip_ws_app (ws rest : string) :
  all_chars is_ws ws = true ->
  match rest with String c _ => is_ws c = false | EmptyString => True end ->
  skip_ws (ws ++ rest) = rest.
Proof. intros. unfold skip_ws. by rewrite span_app. Qed.

Lemma is_digits_inv (s : string) :
  is_digits s = true ->
  exists c r, s = String c r /\ is_digit c = true /\ all_chars is_digit s = true.
Proof.
  destruct s as [|c r]; [done|]. simpl. intros H. exists c, r.
  apply andb_true_iff in H as [? ?]. repeat split; try done.
  simpl. by apply andb_true_iff.
Qed.

Lemma digit_facts (c : ascii) :
  is_digit c = true -> is_ws c = false /\ is_digit_or_dot c = true.
Proof.
  intros H. split.
  - destruct c as [[] [] [] [] [] [] [] []]; try discriminate H; reflexivity.
  - unfold is_digit_or_dot. by rewrite H.
Qed.


Lemma digit_or_dot_not_ws (c : ascii) :
  is_digit_or_dot c = true -> is_ws c = false.
Proof.
  intros H.
  destruct c as [[] [] [] [] [] [] [] []]; try discriminate H; reflexivity.
Qed.

Lemma match_rgba_first (s : string) (c : captures) :
  match_rgba_here s = Some c -> match_rgba s = Some c.
Proof. intros H. destruct s; [by vm_compute in H|]. cbn [match_rgba]. by rewrite H. Qed.

Lemma match_rgba_here_rgba (x : string) :
  match_rgba_here ("rgba(" ++ x)
  = ('(c1, r2) ← some_of is_digit x;
     r3 ← expect "," r2;
     '(c2, r4) ← some_of is_digit (skip_ws r3);
     r5 ← expect "," r4;
     '(c3, r6) ← some_of is_digit (skip_ws r5);
     match alpha_group r6 with
     | Some a => Some (c1, c2, c3, Some a)
     | None => _ ← expect ")" r6; Some (c1, c2, c3, None)
     end).
Proof. reflexivity. Qed.

Lemma expect_here (c : ascii) (s : string) : expect c (String c s) = Some s.
Proof. unfold expect. by rewrite Ascii.eqb_refl. Qed.

Lemma match_rgba_input (r w1 g w2 b w3 a : string) :
  is_digits r = true -> is_digits g = true -> is_digits b = true ->
  all_chars is_ws w1 = true -> all_chars is_ws w2 = true ->
  all_chars is_ws w3 = true ->
  a <> EmptyString -> all_chars is_digit_or_dot a = true ->
  match_rgba (rgba_input r w1 g w2 b w3 a) = Some (r, g, b, Some a).
Proof.
  intros Hr Hg Hb H1 H2 H3 Hane Ha.
  destruct (is_digits_inv r Hr) as (cr & r' & Er & Hcr & Hr').
  destruct (is_digits_inv g Hg) as (cg & g' & Eg & Hcg & Hg').
  destruct (is_digits_inv b Hb) as (cb & b' & Eb & Hcb & Hb').
  assert (E : match_rgba_here (rgba_input r w1 g w2 b w3 a)
              = Some (r, g, b, Some a)).
  { unfold rgba_input. rewrite match_rgba_here_rgba.
    rewrite some_of_app; [|by rewrite Er|done|done]. cbn [mbind option_bind].
    change ("," ++ w1 ++ g ++ "," ++ w2 ++ b ++ "," ++ w3 ++ a ++ ")")
      with (String "," (w1 ++ g ++ "," ++ w2 ++ b ++ "," ++ w3 ++ a ++ ")")).
    rewrite expect_here. cbn [mbind option_bind].
    rewrite skip_ws_app; [|done|rewrite Eg; simpl; by apply digit_facts].
    rewrite some_of_app; [|by rewrite Eg|done|done]. cbn [mbind option_bind].
    change ("," ++ w2 ++ b ++ "," ++ w3 ++ a ++ ")")
      with (String "," (w2 ++ b ++ "," ++ w3 ++ a ++ ")")).
    rewrite expect_here. cbn [mbind option_bind].
    rewrite skip_ws_app; [|done|rewrite Eb; simpl; by apply digit_facts].
    rewrite some_of_app; [|by rewrite Eb|done|done]. cbn [mbind option_bind].
    unfold alpha_group.
    change ("," ++ w3 ++ a ++ ")") with (String "," (w3 ++ a ++ ")")).
    rewrite expect_here. cbn [mbind option_bind].
    rewrite skip_ws_app; [|done|].
    2:{ destruct a as [|ca a']; [done|]. simpl in Ha |- *.
        apply andb_true_iff in Ha as [Hca _]. by apply digit_or_dot_not_ws. }
    rewrite some_of_app; [|done|done|reflexivity]. cbn [mbind option_bind].
    by rewrite expect_here. }
  by apply match_rgba_first.
Qed.

Lemma all_chars_impl (p q : ascii -> bool) (s : string) :
  (forall c, p c = true -> q c = true) ->
  all_chars p s = true -> all_chars q s = true.
Proof.
  intros H. induction s as [|c s IH]; simpl; [done|].
  intros [Hc Hs]%andb_true_iff. by rewrite (H c Hc), IH.
Qed.

Lemma span_all (p : ascii -> bool) (s : string) :
  all_chars p s = true -> span p s = (s, EmptyString).
Proof.
  intros H. induction s as [|c s IH]; simpl in *; [done|].
  apply andb_true_iff in H as [Hc Hs]. by rewrite Hc, IH.
Qed.

Lemma digit_cases (c : ascii) : is_digit c = true -> In c digit_list.
Proof.
  intros H.
  destruct c as [[] [] [] [] [] [] [] []]; try discriminate H;
    simpl; repeat first [left; reflexivity | right].
Qed.

Lemma all_digits (P : ascii -> Prop) :
  Forall P digit_list -> forall c, is_digit c = true -> P c.
Proof.
  intros HP c Hc. rewrite Forall_forall in HP. apply HP.
  apply list_elem_of_In. by apply digit_cases.
Qed.

Lemma digit_radix10 (c : ascii) :
  is_digit c = true -> is_radix_digit 10 c = true.
Proof.
  revert c. apply all_digits. unfold digit_list. simpl. repeat constructor.
Qed.


Lemma digit_sign (c : ascii) (r : string) :
  is_digit c = true -> scan_sign (String c r) = (false, String c r).
Proof.
  revert c.
  apply (all_digits (fun c => scan_sign (String c r) = (false, String c r))).
  unfold digit_list. simpl. repeat constructor.
Qed.

Lemma radix_prefix_digits (s : string) :
  is_digits s = true -> radix_prefix None s = (10%N, s).
Proof.
  intros H. destruct (is_digits_inv s H) as (c & r & -> & Hc & Hall).
  simpl in Hall. apply andb_true_iff in Hall as [_ Hr]. clear H.
  revert c Hc.
  apply (all_digits
           (fun c => radix_prefix None (String c r) = (10%N, String c r))).
  unfold digit_list. simpl.
  repeat constructor.
  destruct r as [|c' r']; [reflexivity|].
  simpl in Hr. apply andb_true_iff in Hr as [Hc' _].
  revert c' Hc'.
  apply (all_digits
           (fun c' => radix_prefix None (String "0" (String c' r'))
                      = (10%N, String "0" (String c' r')))).
  unfold digit_list. simpl. repeat constructor.
Qed.

Lemma parseInt_digits (s : string) :
  is_digits s = true -> parseInt s None = Some (Z.of_N (digits_value 10 s)).
Proof.
  intros H. destruct (is_digits_inv s H) as (c & r & E & Hc & Hall).
  unfold parseInt.
  assert (Hws : is_ws c = false) by (by apply digit_facts).
  rewrite E at 1. cbn [trimStart]. rewrite Hws, (digit_sign c r Hc), <- E.
  rewrite (radix_prefix_digits s H).
  rewrite span_all by (eapply all_chars_impl; [apply digit_radix10|done]).
  by rewrite E.
Qed.

Lemma channel_hex_pair (n : N) :
  (n <= 255)%N ->
  exists a b,
    toUpperCase (channel_hex (Some (Z.of_N n))) = String a (String b EmptyString)
    /\ is_hex_digit a = true /\ is_hex_digit b = true /\ hex_pair a b = n.
Proof.
  intros Hn.
  assert (H : forallb
                (fun k =>
                   match toUpperCase (channel_hex (Some (Z.of_N k))) with
                   | String a (String b EmptyString) =>
                       is_hex_digit a && is_hex_digit b && (hex_pair a b =? k)%N
                   | _ => false
                   end) (map N.of_nat (seq 0 256)) = true)
    by (vm_compute; reflexivity).
  rewrite forallb_forall in H. specialize (H n).
  destruct (toUpperCase (channel_hex (Some (Z.of_N n)))) as [|a [|b [|]]] eqn:E.
  all: (assert (Hin : In n (map N.of_nat (seq 0 256)));
    [ rewrite <- (N2Nat.id n); apply in_map, in_seq; lia |]).
  all: specialize (H Hin); try discriminate H.
  apply andb_true_iff in H as [[Ha Hb]%andb_true_iff Hv].
  exists a, b. repeat split; try done. by apply N.eqb_eq.
Qed.

Lemma toUpperCase_app (s t : string) :
  toUpperCase (s ++ t) = toUpperCase s ++ toUpperCase t.
Proof.
  induction s as [|c s IH]; [done|].
  change (toUpperCase (String c s ++ t))
    with (toUpperCase (String c (s ++ t))).
  cbn [toUpperCase]. rewrite IH. by destruct (N_of_ascii c =? 223)%N.
Qed.

Lemma rgbaToHex_input (r w1 g w2 b w3 a : string) :
  is_digits r = true -> is_digits g = true -> is_digits b = true ->
  (digits_value 10 r <= 255)%N -> (digits_value 10 g <= 255)%N ->
  (digits_value 10 b <= 255)%N ->
  all_chars is_ws w1 = true -> all_chars is_ws w2 = true ->
  all_chars is_ws w3 = true ->
  a <> EmptyString -> all_chars is_digit_or_dot a = true ->
  exists a1 b1 a2 b2 a3 b3,
    rgbaToHex (JStr (rgba_input r w1 g w2 b w3 a))
    = String "#" (String a1 (String b1 (String a2 (String b2 (String a3
               (String b3 EmptyString))))))
    /\ Forall (fun x => is_hex_digit x = true) [a1; b1; a2; b2; a3; b3]
    /\ hex_pair a1 b1 = digits_value 10 r
    /\ hex_pair a2 b2 = digits_value 10 g
    /\ hex_pair a3 b3 = digits_value 10 b.
Proof.
  intros Hr Hg Hb Vr Vg Vb H1 H2 H3 Hane Ha.
  destruct (channel_hex_pair _ Vr) as (a1 & b1 & E1 & ? & ? & ?).
  destruct (channel_hex_pair _ Vg) as (a2 & b2 & E2 & ? & ? & ?).
  destruct (channel_hex_pair _ Vb) as (a3 & b3 & E3 & ? & ? & ?).
  exists a1, b1, a2, b2, a3, b3.
  split; [|by repeat constructor].
  unfold rgbaToHex.
  change (to_boolean (JStr (rgba_input r w1 g w2 b w3 a))) with true.
  cbn [negb orb is_string to_js_string].
  rewrite match_rgba_input by done.
  rewrite !parseInt_digits by done.
  rewrite !toUpperCase_app, E1, E2, E3. reflexivity.
Qed.

(** ** The numerals of numbers *)

Lemma string_of_uint_digits (d : Decimal.uint) :
  all_chars is_digit (DecimalString.NilEmpty.string_of_uint d) = true.
Proof. induction d; simpl; done. Qed.

Lemma dec_string_digits (n : N) : is_digits (dec_string n) = true.
Proof.
  unfold dec_string, DecimalString.NilZero.string_of_uint.
  pose proof (string_of_uint_digits (N.to_uint n)) as H.
  destruct (N.to_uint n); try reflexivity; simpl in *; done.
Qed.

Lemma layout_head (d : string) (n : Z) :
  is_digits d = true -> head_is numeral_start (layout d n) = true.
Proof.
  intros (c & r & -> & Hc & _)%is_digits_inv.
  assert (Hs : numeral_start c = true) by (unfold numeral_start; by rewrite Hc).
  unfold layout.
  destruct ((Z.of_nat (String.length (String c r)) <=? n)%Z && (n <=? 21)%Z);
    [done|].
  destruct ((0 <? n)%Z && (n <=? 21)%Z) eqn:E.
  - apply andb_true_iff in E as [Hn%Z.ltb_lt _].
    destruct (Z.to_nat n) as [|k] eqn:Ek; [lia|]. done.
  - destruct ((-6 <? n)%Z && (n <=? 0)%Z); [done|]. by destruct r.
Qed.

(** [String] of a number starts with a digit, a sign, [N] or [I]. *)
Lemma to_string_head (x : number) :
  head_is numeral_start (JsNumber.to_string x) = true.
Proof.
  destruct x as [s|[]| |[] m e]; try reflexivity.
  unfold JsNumber.to_string, positive_to_string.
  repeat match goal with
         | |- context [let '(_, _) := ?p in _] => destruct p
         end.
  apply layout_head, dec_string_digits.
Qed.

Lemma test_hex6_number (x : number) : test_hex6 (JsNumber.to_string x) = false.
Proof.
  pose proof (to_string_head x) as H.
  destruct (JsNumber.to_string x) as [|c r]; [done|].
  simpl in H. unfold test_hex6.
  destruct (Ascii.eqb_spec c "#") as [->|Hc]; [done|].
  destruct c as [[] [] [] [] [] [] [] []]; done.
Qed.

(** Only a string passes the test of [hexToRgba] on its first argument. *)
Lemma hex_is_valid_string (hex : jsval) :
  hex_is_valid hex = true -> exists s, hex = JStr s.
Proof.
  unfold hex_is_valid. intros [H1 H2]%andb_true_iff.
  destruct hex as [| |b|x|s]; try done.
  - by destruct b.
  - simpl in H2. by rewrite test_hex6_number in H2.
  - by exists s.
Qed.

(** [hexToRgba] returns on every argument: what is no string is replaced by
    the fallback colour before [hex.replace] is reached. *)
Lemma hexToRgba_run_any (hex opacity : jsval) (w : World) :
  hexToRgba hex opacity w
  = (Ok (encoded hex opacity), add_console (hex_warning hex) w).
Proof.
  destruct (hex_is_valid hex) eqn:Hv.
  - destruct (hex_is_valid_string hex Hv) as [s ->].
    apply hexToRgba_run. eauto.
  - unfold hexToRgba, encoded, hex_or_fallback, hex_warning. rewrite Hv.
    unfold hex_is_valid in Hv.
    assert (E : negb (to_boolean hex) || negb (test_hex6 (to_js_string hex))
                = true).
    { destruct (to_boolean hex), (test_hex6 (to_js_string hex)); done. }
    rewrite E. reflexivity.
Qed.

Lemma encoded_text (hex opacity : jsval) :
  exists r g b,
    (r <= 255 /\ g <= 255 /\ b <= 255)%N
    /\ (r, g, b) = (if hex_is_valid hex then channels (to_js_string hex)
                    else (60, 60, 60)%N)
    /\ encoded hex opacity
       = rgba_text r g b (to_js_string (validOpacity opacity)).
Proof.
  unfold encoded, hex_or_fallback.
  destruct (hex_is_valid hex) eqn:Hv.
  - unfold hex_is_valid in Hv. apply andb_true_iff in Hv as [_ Hv].
    destruct (test_hex6_inv _ Hv) as (a & b & c & d & e & f & E & H).
    rewrite E, (rgbaString_hex6 a b c d e f _ H).
    exists (hex_pair a b), (hex_pair c d), (hex_pair e f).
    repeat split; try apply hex_pair_bound.
  - rewrite rgbaString_fallback. exists 60%N, 60%N, 60%N.
    repeat split; done.
Qed.

(** ** The opacity rule of the encoder *)

(** A valid floating-point number starts with [-], a digit or a dot. *)
Lemma valid_float_head (s : string) :
  is_valid_float s = true ->
  exists c r, s = String c r /\ is_ws c = false.
Proof.
  destruct s as [|c r]; [done|]. intros H. exists c, r. split; [done|].
  destruct (is_ws c) eqn:Hw; [|done].
  unfold is_valid_float in H.
  assert (Hc : c <> "-"%char /\ c <> "."%char /\ is_digit c = false)
    by (destruct c as [[] [] [] [] [] [] [] []]; try discriminate Hw; done).
  destruct Hc as (H1 & H2 & H3).
  assert (E : match String c r with String "-" r0 => r0 | _ => String c r end
              = String c r)
    by (destruct c as [[] [] [] [] [] [] [] []]; done).
  rewrite E in H. cbn [span] in H. rewrite H3 in H.
  destruct c as [[] [] [] [] [] [] [] []]; done.
Qed.

(** The value of a slider is an opacity argument. *)
Lemma valid_float_argument (s : string) :
  is_valid_float s = true -> opacity_argument (JStr s) = true.
Proof.
  intros (c & r & -> & Hc)%valid_float_head.
  unfold opacity_argument, is_blank. cbn [all_chars]. by rewrite Hc.
Qed.

Lemma holds_range_valid (v : string) :
  holds RangeInput v = true -> is_valid_float v = true.
Proof.
  unfold holds, sanitize, sanitize_range.
  destruct (is_valid_float v) eqn:E; [done|].
  intros <-%String.eqb_eq. by vm_compute in E.
Qed.

Lemma validOpacity_argument (opacity : jsval) :
  opacity_argument opacity = true ->
  to_js_string (validOpacity opacity)
  = match numeric opacity with
    | Some x => if in_unit_interval x then to_js_string opacity else "0.7"
    | None => "0.7"
    end.
Proof.
  intros Ha.
  assert (D : to_js_string (JNum default_opacity) = "0.7")
    by (vm_compute; reflexivity).
  assert (K : forall x,
            to_js_string (if leb pos_zero x && leb x one then opacity
                          else JNum default_opacity)
            = if in_unit_interval x then to_js_string opacity else "0.7").
  { intros x. unfold in_unit_interval. by destruct (leb pos_zero x && leb x one). }
  destruct opacity as [| |b|x|s]; try done.
  - unfold validOpacity, numeric. cbn [to_number]. rewrite K.
    destruct x; try done.
  - cbn [opacity_argument] in Ha. apply negb_true_iff in Ha.
    unfold validOpacity, numeric. cbn [to_number]. rewrite K, Ha. cbn [orb].
    destruct (JsNumber.of_string s); try done.
Qed.

(** C4.  [hexToRgba] is private to [events.js]; its opacity argument is the
    value of a slider or a number ([opacity_argument]: not a boolean, not a
    blank string).  On every colour and every such opacity: an opacity that
    denotes no number, or a number outside [0, 1], gives [0.7]; an opacity
    that denotes a number of [0, 1] is inserted as it is written; and the
    result is [rgba(R, G, B, opacity)] with R, G and B integers of [0, 255]
    in base 10 without padding, the channels of the colour or 60, 60, 60 for
    what is no colour. *)
Theorem C4_encode_opacity_rule (hex opacity : jsval) (w : World) :
  opacity_argument opacity = true ->
  exists r g b,
    (r <= 255 /\ g <= 255 /\ b <= 255)%N
    /\ (r, g, b) = (if hex_is_valid hex then channels (to_js_string hex)
                    else (60, 60, 60)%N)
    /\ result (hexToRgba hex opacity) w
       = Ok (rgba_text r g b
               (match numeric opacity with
                | Some x =>
                    if in_unit_interval x then to_js_string opacity else "0.7"
                | None => "0.7"
                end)).
Proof.
  intros Ha. unfold result. rewrite hexToRgba_run_any. cbn [fst].
  destruct (encoded_text hex opacity) as (r & g & b & Hb & Hc & ->).
  exists r, g, b. split; [exact Hb|]. split; [exact Hc|].
  by rewrite (validOpacity_argument opacity Ha).
Qed.

Lemma C4_encode_opacity_rule_witness :
  (is_valid_float "1.5" = true /\ opacity_argument (JStr "1.5") = true
   /\ is_valid_float "0.25" = true /\ opacity_argument (JStr "0.25") = true
   /\ opacity_argument (JStr "abc") = true)
  /\ (exists r g b,
        (r <= 255 /\ g <= 255 /\ b <= 255)%N
        /\ (r, g, b) = (255, 0, 170)%N
        /\ result (hexToRgba (JStr "#ff00aa") (JStr "1.5"))
             (samplePanel "#3C3C3C" "0.7")
           = Ok (rgba_text r g b "0.7"))
  /\ result (hexToRgba (JStr "#ff00aa") (JStr "0.25"))
       (samplePanel "#3C3C3C" "0.7")
     = Ok "rgba(255, 0, 170, 0.25)"
  /\ result (hexToRgba (JStr "#ff00aa") (JStr "abc"))
       (samplePanel "#3C3C3C" "0.7")
     = Ok "rgba(255, 0, 170, 0.7)".
Proof.
  split; [repeat split|].
  split; [|split; reflexivity].
  apply (C4_encode_opacity_rule (JStr "#ff00aa") (JStr "1.5")
           (samplePanel "#3C3C3C" "0.7")).
  reflexivity.
Defined.

(** ** Numbers of the unit interval *)

Lemma SFcompare_antisym (x y : spec_float) :
  SFcompare y x = option_map CompOpp (SFcompare x y).
Proof.
  destruct x as [sx|sx| |sx mx ex], y as [sy|sy| |sy my ey]; simpl; try done;
    try (by destruct sx); try (by destruct sy); try (by destruct sx, sy).
  destruct sx, sy; simpl; try done.
  - rewrite (Z.compare_antisym ex ey).
    destruct (ex ?= ey)%Z eqn:E; simpl; try done.
    rewrite (Pos.compare_cont_antisym). by rewrite CompOpp_involutive.
  - rewrite (Z.compare_antisym ex ey).
    destruct (ex ?= ey)%Z eqn:E; simpl; try done.
    by rewrite (Pos.compare_cont_antisym).
Qed.

Lemma one_value : one = S754_finite false 4503599627370496 (-52).
Proof. reflexivity. Qed.

Lemma clamp_spec (x : number) :
  is_nan x = false ->
  math_max pos_zero (math_min one x) = clamp01 x
  /\ in_unit_interval (clamp01 x) = true.
Proof.
  intros Hn.
  unfold clamp01, math_max, math_min, ltb, SFltb, in_unit_interval, leb, SFleb.
  destruct x as [s|s| |[] m e].
  - destruct s; split; reflexivity.
  - destruct s; split; reflexivity.
  - discriminate Hn.
  - split; reflexivity.
  - pose proof (SFcompare_antisym one (S754_finite false m e)) as Ha.
    destruct (SFcompare one (S754_finite false m e)) as [[]|] eqn:E;
      cbn [option_map CompOpp] in Ha.
    + split; [reflexivity|].
      change (SFleb pos_zero (S754_finite false m e)
              && SFleb (S754_finite false m e) one = true).
      unfold SFleb at 2. by rewrite Ha.
    + split; reflexivity.
    + split; [reflexivity|].
      change (SFleb pos_zero (S754_finite false m e)
              && SFleb (S754_finite false m e) one = true).
      unfold SFleb at 2. by rewrite Ha.
    + by rewrite one_value in E.
Qed.

Lemma clamp_in_unit (x : number) :
  in_unit_interval x = true ->
  JsNumber.to_string (clamp01 x) = JsNumber.to_string x.
Proof.
  unfold in_unit_interval, leb, SFleb, clamp01, ltb, SFltb.
  intros [H0 H1]%andb_true_iff.
  pose proof (SFcompare_antisym x one) as Ha.
  destruct x as [s|[]| |[] m e]; try discriminate.
  - by destruct s.
  - destruct (SFcompare (S754_finite false m e) one) as [[]|] eqn:E; try done;
      cbn [option_map CompOpp] in Ha; by rewrite Ha.
Qed.

Lemma getOpacity_input (r w1 g w2 b w3 a : string) :
  is_digits r = true -> is_digits g = true -> is_digits b = true ->
  all_chars is_ws w1 = true -> all_chars is_ws w2 = true ->
  all_chars is_ws w3 = true ->
  a <> EmptyString -> all_chars is_digit_or_dot a = true ->
  getOpacityFromRgba (JStr (rgba_input r w1 g w2 b w3 a))
  = math_max pos_zero (math_min one (parseFloat a)).
Proof.
  intros. unfold getOpacityFromRgba.
  change (to_boolean (JStr (rgba_input r w1 g w2 b w3 a))) with true.
  cbn [negb orb is_string to_js_string].
  by rewrite match_rgba_input.
Qed.


Lemma in_unit_not_nan (x : number) :
  in_unit_interval x = true -> is_nan x = false.
Proof. by destruct x. Qed.

(** ** The sign of a numeral without sign *)

Lemma binary_round_aux_sign (mx ex : Z) (lx : location) :
  not_negative (binary_round_aux prec emax false mx ex lx).
Proof.
  unfold binary_round_aux.
  destruct (shr_fexp prec emax mx ex lx) as [mrs' e'].
  destruct (shr_fexp prec emax _ e' loc_Exact) as [mrs'' e''].
  destruct (shr_m mrs''); try done.
  by destruct (e'' <=? emax - prec)%Z.
Qed.

Lemma of_decimal_sign (m : N) (e : Z) : not_negative (of_decimal false m e).
Proof.
  unfold of_decimal. destruct m as [|p]; [done|].
  destruct (0 <=? e)%Z.
  - unfold binary_normalize, id.
    destruct (Z.pos p * 10 ^ e)%Z eqn:E; try done.
    + unfold binary_round.
      destruct (shl_align _ _ _) as [mz ez]. apply binary_round_aux_sign.
    + exfalso. pose proof (Z.pow_nonneg 10 e ltac:(lia)). lia.
  - destruct (10 ^ (- e))%Z as [|q|q]; try done.
    unfold SFdiv. destruct (SFdiv_core_binary _ _ _ _ _ _) as [[mz ez] lz].
    apply binary_round_aux_sign.
Qed.

Lemma digit_or_dot_cases (c : ascii) :
  is_digit_or_dot c = true -> is_digit c = true \/ c = "."%char.
Proof.
  unfold is_digit_or_dot. intros [H|H]%orb_true_iff; [by left|right].
  by apply Ascii.eqb_eq.
Qed.

Lemma scan_sign_numeral (c : ascii) (r : string) :
  is_digit_or_dot c = true -> scan_sign (String c r) = (false, String c r).
Proof.
  intros [H| ->]%digit_or_dot_cases; [by apply digit_sign|reflexivity].
Qed.

Lemma scan_unsigned_numeral (c : ascii) (r : string) :
  is_digit_or_dot c = true ->
  match scan_unsigned (String c r) with
  | Some (LitInfinity, _) => False
  | _ => True
  end.
Proof.
  intros Hc. unfold scan_unsigned.
  assert (E : is_prefix "Infinity" (String c r) = false).
  { cbn [is_prefix]. destruct c as [[] [] [] [] [] [] [] []]; done. }
  rewrite E.
  destruct (span is_digit (String c r)) as [i r1].
  destruct i as [|ci i'].
  - destruct r1 as [|c1 r1']; [done|].
    destruct (Ascii.eqb_spec c1 ".") as [->|Hne].
    + destruct (span is_digit r1') as [f r2]. destruct f; [done|].
      by destruct (scan_exponent r2).
    + destruct c1 as [[] [] [] [] [] [] [] []]; done.
  - destruct r1 as [|c1 r1'].
    + by destruct (scan_exponent EmptyString).
    + destruct (Ascii.eqb_spec c1 ".") as [->|Hne].
      * destruct (span is_digit r1') as [f r2]. by destruct (scan_exponent r2).
      * assert (K : forall A (x y : A),
                  match c1 with "."%char => x | _ => y end = y)
          by (intros; destruct c1 as [[] [] [] [] [] [] [] []]; done).
        destruct (scan_exponent (String c1 r1')) as [x r3] eqn:Es.
        destruct c1 as [[] [] [] [] [] [] [] []]; try done; by rewrite Es.
Qed.

(** What [parseFloat] reads from a run of digits and dots is NaN or a
    number without sign. *)
Lemma parseFloat_unsigned (a : string) :
  a <> EmptyString -> all_chars is_digit_or_dot a = true ->
  not_negative (parseFloat a).
Proof.
  destruct a as [|c r]; [done|]. intros _ Ha.
  cbn [all_chars] in Ha. apply andb_true_iff in Ha as [Hc _].
  unfold parseFloat. cbn [trimStart].
  rewrite (digit_or_dot_not_ws c Hc), (scan_sign_numeral c r Hc).
  pose proof (scan_unsigned_numeral c r Hc) as H.
  destruct (scan_unsigned (String c r)) as [[[|m e] rest]|]; try done.
  apply of_decimal_sign.
Qed.

(** On a number without sign the lower bound of the clamp is idle. *)
Lemma clamp_unsigned (x : number) :
  not_negative x -> math_max pos_zero (math_min one x) = math_min one x.
Proof.
  intros Hx. unfold math_max, math_min.
  destruct x as [[]|[]| |[] m e]; try done.
  destruct (SFcompare one (S754_finite false m e)) as [[]|] eqn:E; try done.
Qed.

(** ** The alpha the decoder reads *)

(** On every string in which the pattern of the decoder finds an alpha that
    [parseFloat] reads as a number, the opacity is that number clamped. *)
Lemma getOpacityFromRgba_clamps (s : string) (m1 m2 m3 a : string) :
  match_rgba s = Some (m1, m2, m3, Some a) ->
  is_nan (parseFloat a) = false ->
  getOpacityFromRgba (JStr s) = clamp01 (parseFloat a)
  /\ in_unit_interval (getOpacityFromRgba (JStr s)) = true.
Proof.
  intros Hm Hn. unfold getOpacityFromRgba.
  destruct s as [|c s]; [by vm_compute in Hm|].
  cbn [to_boolean negb orb is_string to_js_string]. rewrite Hm.
  destruct (clamp_spec (parseFloat a) Hn) as [E Hu].
  rewrite E. by split.
Qed.

Lemma all_chars_app (p : ascii -> bool) (s t : string) :
  all_chars p (s ++ t) = all_chars p s && all_chars p t.
Proof. induction s as [|c s IH]; simpl; [done|]. by rewrite IH, andb_assoc. Qed.

Lemma append_assoc (s t u : string) : (s ++ t) ++ u = s ++ t ++ u.
Proof.
  induction s as [|c s IH]; [done|].
  change (String c ((s ++ t) ++ u) = String c (s ++ t ++ u)). by rewrite IH.
Qed.

Lemma not_r_digit (c : ascii) :
  is_digit c = true -> negb (Ascii.eqb c "r") = true.
Proof.
  revert c. apply all_digits. unfold digit_list. simpl. repeat constructor.
Qed.

Lemma not_r_ws (c : ascii) : is_ws c = true -> negb (Ascii.eqb c "r") = true.
Proof. destruct c as [[] [] [] [] [] [] [] []]; done. Qed.

Lemma match_rgba_next (c : ascii) (s : string) :
  match_rgba_here (String c s) = None -> match_rgba (String c s) = match_rgba s.
Proof. intros H. cbn [match_rgba]. by rewrite H. Qed.

(** An alpha that leaves the class [[0-9.]] before its end, by a sign or the
    letter of an exponent say, is not matched: the run of digits and dots
    would have to be followed by [\)]. *)
Lemma match_rgba_foreign_alpha (r w1 g w2 b w3 pre rest : string) (c : ascii) :
  is_digits r = true -> is_digits g = true -> is_digits b = true ->
  all_chars is_ws w1 = true -> all_chars is_ws w2 = true ->
  all_chars is_ws w3 = true ->
  all_chars is_digit_or_dot pre = true ->
  is_digit_or_dot c = false -> is_ws c = false -> c <> ")"%char ->
  all_chars (fun x => negb (Ascii.eqb x "r")) (pre ++ String c rest) = true ->
  match_rgba (rgba_input r w1 g w2 b w3 (pre ++ String c rest)) = None.
Proof.
  intros Hr Hg Hb H1 H2 H3 Hpre Hc Hw Hp Hnr.
  destruct (is_digits_inv r Hr) as (cr & r' & Er & Hcr & Hr').
  destruct (is_digits_inv g Hg) as (cg & g' & Eg & Hcg & Hg').
  destruct (is_digits_inv b Hb) as (cb & b' & Eb & Hcb & Hb').
  set (a := pre ++ String c rest) in *.
  assert (Ea : a ++ ")" = pre ++ String c (rest ++ ")"))
    by (unfold a; by rewrite append_assoc).
  assert (Hhead : match a ++ ")" with
                  | String x _ => is_ws x = false
                  | EmptyString => True
                  end).
  { rewrite Ea. destruct pre as [|x pre']; [done|].
    cbn [all_chars] in Hpre. apply andb_true_iff in Hpre as [Hx _].
    by apply digit_or_dot_not_ws. }
  assert (Hhere : match_rgba_here (rgba_input r w1 g w2 b w3 a) = None).
  { unfold rgba_input. rewrite match_rgba_here_rgba.
    rewrite some_of_app; [|by rewrite Er|done|done]. cbn [mbind option_bind].
    change ("," ++ w1 ++ g ++ "," ++ w2 ++ b ++ "," ++ w3 ++ a ++ ")")
      with (String "," (w1 ++ g ++ "," ++ w2 ++ b ++ "," ++ w3 ++ a ++ ")")).
    rewrite expect_here. cbn [mbind option_bind].
    rewrite skip_ws_app; [|done|rewrite Eg; simpl; by apply digit_facts].
    rewrite some_of_app; [|by rewrite Eg|done|done]. cbn [mbind option_bind].
    change ("," ++ w2 ++ b ++ "," ++ w3 ++ a ++ ")")
      with (String "," (w2 ++ b ++ "," ++ w3 ++ a ++ ")")).
    rewrite expect_here. cbn [mbind option_bind].
    rewrite skip_ws_app; [|done|rewrite Eb; simpl; by apply digit_facts].
    rewrite some_of_app; [|by rewrite Eb|done|done]. cbn [mbind option_bind].
    assert (Eg0 : alpha_group ("," ++ w3 ++ a ++ ")") = None).
    { unfold alpha_group.
      change ("," ++ w3 ++ a ++ ")") with (String "," (w3 ++ a ++ ")")).
      rewrite expect_here. cbn [mbind option_bind].
      rewrite skip_ws_app by done. rewrite Ea.
      unfold some_of. rewrite span_app; [|done|done].
      destruct pre as [|x pre']; [done|]. cbn [mbind option_bind].
      unfold expect. destruct (Ascii.eqb_spec ")" c) as [<-|]; done. }
    rewrite Eg0. reflexivity. }
  unfold rgba_input in *.
  etrans;
    [exact (match_rgba_next "r"
              ("gba(" ++ r ++ "," ++ w1 ++ g ++ "," ++ w2 ++ b ++ ","
                 ++ w3 ++ a ++ ")") Hhere)|].
  apply match_rgba_no_r.
  assert (Nd : forall s, all_chars is_digit s = true ->
                 all_chars (fun x => negb (Ascii.eqb x "r")) s = true).
  { intros s. apply all_chars_impl, not_r_digit. }
  assert (Nw : forall s, all_chars is_ws s = true ->
                 all_chars (fun x => negb (Ascii.eqb x "r")) s = true).
  { intros s. apply all_chars_impl, not_r_ws. }
  rewrite !all_chars_app, Hnr, (Nd _ Hr'), (Nd _ Hg'), (Nd _ Hb'),
    (Nw _ H1), (Nw _ H2), (Nw _ H3).
  reflexivity.
Qed.

(** C10, as the code has it.  On [rgba(r,g,b,a)]: when the alpha is a run
    of digits and dots that [parseFloat] reads as a number, the decoder
    returns [min(1, parseFloat(a))], which is [max(0, min(1, parseFloat(a)))]
    and lies in [0, 1]; such an alpha has no sign, and the lower bound of
    the clamp is never reached.  When the alpha leaves the class [[0-9.]]
    before its end, by a sign or by the letter of an exponent, the pattern
    does not match and the decoder returns 1, whatever [parseFloat] reads
    from the alpha. *)
Theorem C10_decode_alpha (r w1 g w2 b w3 a : string) :
  is_digits r = true -> is_digits g = true -> is_digits b = true ->
  all_chars is_ws w1 = true -> all_chars is_ws w2 = true ->
  all_chars is_ws w3 = true ->
  let x := getOpacityFromRgba (JStr (rgba_input r w1 g w2 b w3 a)) in
  (a <> EmptyString -> all_chars is_digit_or_dot a = true ->
   is_nan (parseFloat a) = false ->
     x = math_min one (parseFloat a)
     /\ x = math_max pos_zero (math_min one (parseFloat a))
     /\ in_unit_interval x = true)
  /\ (forall pre c rest,
        a = pre ++ String c rest ->
        all_chars is_digit_or_dot pre = true ->
        is_digit_or_dot c = false -> is_ws c = false -> c <> ")"%char ->
        all_chars (fun u => negb (Ascii.eqb u "r")) a = true ->
        x = one).
Proof.
  intros Hr Hg Hb H1 H2 H3 x. split.
  - intros Hane Ha Hn.
    assert (E : x = math_max pos_zero (math_min one (parseFloat a)))
      by (by apply getOpacity_input).
    destruct (getOpacityFromRgba_clamps _ r g b a
                (match_rgba_input r w1 g w2 b w3 a Hr Hg Hb H1 H2 H3 Hane Ha) Hn)
      as [_ Hu].
    split; [|by split].
    rewrite E. apply clamp_unsigned. by apply parseFloat_unsigned.
  - intros pre c rest -> Hpre Hc Hw Hp Hnr.
    unfold x, getOpacityFromRgba.
    change (to_boolean (JStr (rgba_input r w1 g w2 b w3 (pre ++ String c rest))))
      with true.
    cbn [negb orb is_string to_js_string].
    by rewrite match_rgba_foreign_alpha.
Qed.

Lemma C10_decode_alpha_witness :
  let x := getOpacityFromRgba (JStr (rgba_input "10" " " "20" " " "30" " " "7.5")) in
  (("7.5" : string) <> EmptyString -> all_chars is_digit_or_dot "7.5" = true ->
   is_nan (parseFloat "7.5") = false ->
     x = math_min one (parseFloat "7.5")
     /\ x = math_max pos_zero (math_min one (parseFloat "7.5"))
     /\ in_unit_interval x = true)
  /\ (forall pre c rest,
        "7.5" = pre ++ String c rest ->
        all_chars is_digit_or_dot pre = true ->
        is_digit_or_dot c = false -> is_ws c = false -> c <> ")"%char ->
        all_chars (fun u => negb (Ascii.eqb u "r")) "7.5" = true ->
        x = one).
Proof.
  apply (C10_decode_alpha "10" " " "20" " " "30" " " "7.5"); reflexivity.
Defined.

(** C10 as the claim words it fails on an alpha with a sign or an exponent:
    [parseFloat] reads -0.5 from [-0.5], and [max(0, min(1, -0.5))] is 0, but
    the pattern does not match [rgba(10,20,30,-0.5)] and the decoder returns
    1; it returns 1 on [rgba(10,20,30,1e-7)] as well, where [parseFloat]
    reads a number of [0, 1] other than 1. *)
Lemma C10_signed_alpha_counterexample :
  (is_nan (parseFloat "-0.5") = false
   /\ math_max pos_zero (math_min one (parseFloat "-0.5")) = pos_zero
   /\ getOpacityFromRgba (JStr "rgba(10,20,30,-0.5)") = one
   /\ one <> pos_zero)
  /\ (is_nan (parseFloat "1e-7") = false
      /\ in_unit_interval (parseFloat "1e-7") = true
      /\ math_max pos_zero (math_min one (parseFloat "1e-7")) = parseFloat "1e-7"
      /\ getOpacityFromRgba (JStr "rgba(10,20,30,1e-7)") = one
      /\ parseFloat "1e-7" <> one).
Proof.
  split.
  - split; [reflexivity|]. split; [vm_compute; reflexivity|].
    split; [vm_compute; reflexivity|]. discriminate.
  - split; [vm_compute; reflexivity|]. split; [vm_compute; reflexivity|].
    split; [vm_compute; reflexivity|]. split; [vm_compute; reflexivity|].
    vm_compute. discriminate.
Qed.

(** ** Round trip *)

(** C2, as the code has it.  Decoding a well-formed [rgba(r,g,b,a)], with
    channels of [0, 255] and an alpha of [0, 1], and encoding the result
    gives back the three channels; the alpha comes back as [String] prints
    the number [parseFloat] read, which is the shortest numeral of that
    double and not, in general, the text [a]. *)
Theorem C2_round_trip (r w1 g w2 b w3 a : string) (w : World) :
  is_digits r = true -> is_digits g = true -> is_digits b = true ->
  (digits_value 10 r <= 255)%N -> (digits_value 10 g <= 255)%N ->
  (digits_value 10 b <= 255)%N ->
  all_chars is_ws w1 = true -> all_chars is_ws w2 = true ->
  all_chars is_ws w3 = true ->
  a <> EmptyString -> all_chars is_digit_or_dot a = true ->
  in_unit_interval (parseFloat a) = true ->
  let x := JStr (rgba_input r w1 g w2 b w3 a) in
  hexToRgba (JStr (rgbaToHex x)) (JNum (getOpacityFromRgba x)) w
  = (Ok (rgba_text (digits_value 10 r) (digits_value 10 g) (digits_value 10 b)
           (JsNumber.to_string (parseFloat a))), w).
Proof.
  intros Hr Hg Hb Vr Vg Vb H1 H2 H3 Hane Ha Hu x. unfold x.
  destruct (rgbaToHex_input r w1 g w2 b w3 a) as
    (a1 & b1 & a2 & b2 & a3 & b3 & Eh & Hd & E1 & E2 & E3); try done.
  rewrite Eh, getOpacity_input by done.
  destruct (clamp_spec (parseFloat a) (in_unit_not_nan _ Hu)) as [Ec Huc].
  rewrite Ec, hexToRgba_run by eauto.
  assert (Hv : hex_is_valid
                 (JStr (String "#" (String a1 (String b1 (String a2 (String b2
                          (String a3 (String b3 EmptyString)))))))) = true).
  { unfold hex_is_valid. cbn [to_boolean to_js_string andb test_hex6].
    unfold six_hex_digits. apply forallb_forall. intros c Hc.
    rewrite Forall_forall in Hd. by apply Hd, list_elem_of_In. }
  unfold encoded, hex_or_fallback, hex_warning. rewrite Hv.
  rewrite add_console_nil. cbn [to_js_string].
  rewrite (rgbaString_hex6 a1 b1 a2 b2 a3 b3 _ Hd), E1, E2, E3.
  unfold validOpacity. cbn [to_number].
  unfold in_unit_interval in Huc. rewrite Huc. cbn [to_js_string].
  by rewrite (clamp_in_unit _ Hu).
Qed.

Lemma C2_round_trip_witness :
  let x := JStr "rgba(10, 20,30,0.50)" in
  hexToRgba (JStr (rgbaToHex x)) (JNum (getOpacityFromRgba x))
    (samplePanel "#3C3C3C" "0.7")
  = (Ok (rgba_text 10 20 30 (JsNumber.to_string (parseFloat "0.50"))),
     samplePanel "#3C3C3C" "0.7").
Proof.
  apply (C2_round_trip "10" " " "20" "" "30" "" "0.50"
           (samplePanel "#3C3C3C" "0.7"));
    (reflexivity || discriminate).
Defined.

(** C2 as the specification words it, the alpha "passed through exactly, not
    reformatted", fails: [0.50] comes back as [0.5], and
    [0.1234567890123456789], which no double holds, as
    [0.12345678901234568].  An alpha in exponent notation is not decoded at
    all: on [rgba(10,20,30,1e-7)] the pattern does not match, and the round
    trip loses the channels as well. *)
Lemma C2_alpha_reformatted_counterexample :
  (let x := JStr "rgba(10,20,30,0.50)" in
   result (hexToRgba (JStr (rgbaToHex x)) (JNum (getOpacityFromRgba x)))
     (samplePanel "#3C3C3C" "0.7")
   = Ok "rgba(10, 20, 30, 0.5)")
  /\ "rgba(10, 20, 30, 0.5)" <> rgba_text 10 20 30 "0.50"
  /\ (let x := JStr "rgba(10,20,30,0.1234567890123456789)" in
      result (hexToRgba (JStr (rgbaToHex x)) (JNum (getOpacityFromRgba x)))
        (samplePanel "#3C3C3C" "0.7")
      = Ok "rgba(10, 20, 30, 0.12345678901234568)")
  /\ (let x := JStr "rgba(10,20,30,1e-7)" in
      result (hexToRgba (JStr (rgbaToHex x)) (JNum (getOpacityFromRgba x)))
        (samplePanel "#3C3C3C" "0.7")
      = Ok "rgba(0, 0, 0, 1)").
Proof.
  split; [vm_compute; reflexivity|].
  split; [discriminate|].
  split; vm_compute; reflexivity.
Qed.

(** ** The alpha-bearing slots *)

Lemma dec_string_small (n : N) :
  (n <= 255)%N ->
  is_digits (dec_string n) = true /\ digits_value 10 (dec_string n) = n.
Proof.
  intros Hn.
  assert (H : forallb
                (fun k => is_digits (dec_string k)
                          && (digits_value 10 (dec_string k) =? k)%N)
                (map N.of_nat (seq 0 256)) = true)
    by (vm_compute; reflexivity).
  rewrite forallb_forall in H. specialize (H n).
  assert (Hin : In n (map N.of_nat (seq 0 256))).
  { rewrite <- (N2Nat.id n). apply in_map, in_seq. lia. }
  apply H in Hin. apply andb_true_iff in Hin as [? ?%N.eqb_eq]. done.
Qed.

Lemma split_last_app (a : string) (c : ascii) :
  split_last (a ++ String c EmptyString) = Some (a, c).
Proof.
  induction a as [|x a IH]; [done|].
  change (String x a ++ String c EmptyString)
    with (String x (a ++ String c EmptyString)).
  cbn [split_last]. by rewrite IH.
Qed.

Lemma rgba_text_valid (r g b : N) (a : string) :
  (r <= 255)%N -> (g <= 255)%N -> (b <= 255)%N ->
  is_alpha_numeral a = true ->
  is_valid_rgba (rgba_text r g b a) = true.
Proof.
  intros Hr Hg Hb Ha.
  destruct (dec_string_small r Hr) as [Dr Vr].
  destruct (dec_string_small g Hg) as [Dg Vg].
  destruct (dec_string_small b Hb) as [Db Vb].
  assert (Hf : is_valid_float a = true).
  { unfold is_alpha_numeral in Ha. by apply andb_true_iff in Ha as [? _]. }
  destruct (valid_float_head a Hf) as (ca & a' & Ea & Hca).
  destruct (is_digits_inv _ Dr) as (cr & r' & Er & Hcr & Hr').
  destruct (is_digits_inv _ Dg) as (cg & g' & Eg & Hcg & Hg').
  destruct (is_digits_inv _ Db) as (cb & b' & Eb & Hcb & Hb').
  unfold is_valid_rgba, rgba_text.
  change (expect_prefix "rgba("
            ("rgba(" ++ dec_string r ++ ", " ++ dec_string g ++ ", "
               ++ dec_string b ++ ", " ++ a ++ ")"))
    with (Some (dec_string r ++ ", " ++ dec_string g ++ ", "
                  ++ dec_string b ++ ", " ++ a ++ ")")).
  cbn [mbind option_bind].
  rewrite some_of_app; [|by rewrite Er|done|done]. cbn [mbind option_bind].
  change (", " ++ dec_string g ++ ", " ++ dec_string b ++ ", " ++ a ++ ")")
    with (String ","
            (" " ++ dec_string g ++ ", " ++ dec_string b ++ ", " ++ a ++ ")")).
  rewrite expect_here. cbn [mbind option_bind].
  rewrite skip_ws_app; [|done|rewrite Eg; simpl; by apply digit_facts].
  rewrite some_of_app; [|by rewrite Eg|done|done]. cbn [mbind option_bind].
  change (", " ++ dec_string b ++ ", " ++ a ++ ")")
    with (String "," (" " ++ dec_string b ++ ", " ++ a ++ ")")).
  rewrite expect_here. cbn [mbind option_bind].
  rewrite skip_ws_app; [|done|rewrite Eb; simpl; by apply digit_facts].
  rewrite some_of_app; [|by rewrite Eb|done|done]. cbn [mbind option_bind].
  change (", " ++ a ++ ")") with (String "," (" " ++ a ++ ")")).
  rewrite expect_here. cbn [mbind option_bind].
  rewrite skip_ws_app; [|done|by rewrite Ea].
  rewrite split_last_app. cbn [mbind option_bind].
  rewrite Vr, Vg, Vb, Ha.
  apply N.leb_le in Hr, Hg, Hb. by rewrite Hr, Hg, Hb.
Qed.

(** What [hexToRgba] inserts for the value of a slider, or for the number
    [applyMenuStyles] passes when the slider is missing, is a numeral of
    [0, 1]. *)
Lemma validOpacity_numeral (d : gmap string Control) (id : string)
    (x : number) :
  (forall c, d !! id = Some c -> is_valid_float (value c) = true) ->
  is_alpha_numeral (JsNumber.to_string x) = true ->
  in_unit_interval x = true ->
  is_alpha_numeral (to_js_string (validOpacity (valueOr d id (JNum x)))) = true.
Proof.
  unfold valueOr. intros Hs Hx Hu.
  destruct (d !! id) as [e|].
  - specialize (Hs e eq_refl).
    unfold validOpacity. cbn [to_number].
    fold (in_unit_interval (JsNumber.of_string (value e))).
    destruct (in_unit_interval (JsNumber.of_string (value e))) eqn:E;
      [|reflexivity].
    cbn [to_js_string]. unfold is_alpha_numeral. by rewrite Hs, E.
  - unfold validOpacity. cbn [to_number].
    fold (in_unit_interval x). by rewrite Hu.
Qed.

Lemma encoded_valid (hex opacity : jsval) :
  is_alpha_numeral (to_js_string (validOpacity opacity)) = true ->
  is_valid_rgba (encoded hex opacity) = true
  /\ test_hex6 (encoded hex opacity) = false.
Proof.
  intros Ha. split; [|reflexivity].
  destruct (encoded_text hex opacity) as (r & g & b & (? & ? & ?) & _ & ->).
  by apply rgba_text_valid.
Qed.

(** C8.  The sliders are range inputs, so that, where they are present,
    their value is a valid floating-point number.  Whatever the colour
    controls hold, and whichever controls are missing, after
    [applyMenuStyles] the slots [itemBgColor] and [menuBgColor] each hold a
    valid [rgba(...)] string, never a bare hex string. *)
Theorem C8_alpha_slots_valid (C : Constants) (w : World) :
  (forall id c, In id sliderIds -> document w !! id = Some c ->
     is_valid_float (value c) = true) ->
  exists o s1 s2,
    menuStyles (after (applyMenuStyles C) w) = Some o
    /\ o !! "itemBgColor" = Some (JStr s1)
    /\ is_valid_rgba s1 = true /\ test_hex6 s1 = false
    /\ o !! "menuBgColor" = Some (JStr s2)
    /\ is_valid_rgba s2 = true /\ test_hex6 s2 = false.
Proof.
  intros Hs.
  exists (appliedModel C w), (itemBgEncoded w), (menuBgEncoded w).
  split; [apply applyMenuStyles_run|].
  assert (V1 : is_valid_rgba (itemBgEncoded w) = true
               /\ test_hex6 (itemBgEncoded w) = false).
  { apply encoded_valid, validOpacity_numeral; try reflexivity.
    intros c. apply Hs. cbv [In sliderIds]. tauto. }
  assert (V2 : is_valid_rgba (menuBgEncoded w) = true
               /\ test_hex6 (menuBgEncoded w) = false).
  { apply encoded_valid, validOpacity_numeral; try reflexivity.
    intros c. apply Hs. cbv [In sliderIds]. tauto. }
  destruct V1 as [? ?], V2 as [? ?].
  unfold appliedModel. split_and!; try done.
  - rewrite lookup_delete_ne by done. rewrite !lookup_insert_ne by done.
    apply lookup_insert_eq.
  - rewrite lookup_delete_ne by done. rewrite !lookup_insert_ne by done.
    apply lookup_insert_eq.
Qed.

Lemma C8_alpha_slots_valid_witness :
  (forall id c, In id sliderIds ->
     document (samplePanel "not a colour" "0.9") !! id = Some c ->
     is_valid_float (value c) = true)
  /\ exists o s1 s2,
       menuStyles (after (applyMenuStyles sampleConstants)
                     (samplePanel "not a colour" "0.9")) = Some o
       /\ o !! "itemBgColor" = Some (JStr s1)
       /\ is_valid_rgba s1 = true /\ test_hex6 s1 = false
       /\ o !! "menuBgColor" = Some (JStr s2)
       /\ is_valid_rgba s2 = true /\ test_hex6 s2 = false.
Proof.
  assert (H : forall id c, In id sliderIds ->
                document (samplePanel "not a colour" "0.9") !! id = Some c ->
                is_valid_float (value c) = true).
  { intros id c Hin. cbv [In sliderIds] in Hin.
    destruct Hin as [<-|[<-|[]]]; intros [= <-]; reflexivity. }
  split; [exact H|].
  exact (C8_alpha_slots_valid sampleConstants
           (samplePanel "not a colour" "0.9") H).
Defined.

